(** * send_grafana_iot_humidity: a shallow embedding and its properties

    The collector script polls humidity sensors over HTTP, normalises the
    readings to a list of measurements and forwards them in one
    OpenTelemetry envelope.  The embedding keeps the script's dynamic
    values (JSON objects, Python dicts in insertion order), its exceptions
    and the sequence of network exchanges explicit. *)

From Stdlib Require Import List NArith ZArith Bool Ascii String Lia.
From Stdlib Require Import Floats.SpecFloat.
Import ListNotations.

Set Warnings "-register-all".

Local Open Scope N_scope.

(** ** Text and bytes *)

(** A Python [str] is a sequence of Unicode code points; a [bytes] object
    is a sequence of octets. *)
Definition pystr := list N.
Definition pybytes := list N.

(** Literals of the script are ASCII; [str_lit] reads one as a [pystr]. *)
Definition str_lit (s : string) : pystr :=
  map N_of_ascii (list_ascii_of_string s).

Arguments str_lit : simpl never.

Definition str_eqb (a b : pystr) : bool :=
  if list_eq_dec N.eq_dec a b then true else false.

Fixpoint strip_prefix (p t : pystr) : option pystr :=
  match p, t with
  | [], _ => Some t
  | c :: p', d :: t' => if c =? d then strip_prefix p' t' else None
  | _ :: _, [] => None
  end.

(** [needle in haystack] on two strings. *)
Fixpoint str_contains (needle hay : pystr) : bool :=
  match strip_prefix needle hay with
  | Some _ => true
  | None => match hay with
            | [] => false
            | _ :: hay' => str_contains needle hay'
            end
  end.

(** [s.rstrip('/')] *)
Definition rstrip_slash (s : pystr) : pystr :=
  fold_right (fun c acc => match acc with
                           | [] => if c =? 47 then [] else [c]
                           | _ => c :: acc
                           end) [] s.

(** ** Unicode decimal digits

    [\d] in a [str] pattern and [float] on a [str] both accept every code
    point of category Nd.  The digits of each script are ten consecutive
    code points; the table lists the zero of each run (Unicode 14.0, the
    database of CPython 3.11). *)
Definition nd_zeros : list N :=
  [48; 1632; 1776; 1984; 2406; 2534; 2662; 2790; 2918; 3046; 3174; 3302;
   3430; 3558; 3664; 3792; 3872; 4160; 4240; 6112; 6160; 6470; 6608; 6784;
   6800; 6992; 7088; 7232; 7248; 42528; 43216; 43264; 43472; 43504; 43600;
   44016; 65296; 66720; 68912; 69734; 69872; 69942; 70096; 70384; 70736;
   70864; 71248; 71360; 71472; 71904; 72016; 72784; 73040; 73120; 92768;
   92864; 93008; 120782; 120792; 120802; 120812; 120822; 123200; 123632;
   125264; 130032].

Fixpoint decimal_in (zeros : list N) (c : N) : option N :=
  match zeros with
  | [] => None
  | z :: zs => if (z <=? c) && (c <? z + 10) then Some (c - z)
               else decimal_in zs c
  end.

(** [Py_UNICODE_TODECIMAL]: the digit value of a code point, if any. *)
Definition unicode_decimal (c : N) : option N := decimal_in nd_zeros c.

Definition is_digit (c : N) : bool :=
  match unicode_decimal c with Some _ => true | None => false end.

(** [Py_UNICODE_ISSPACE] beyond ASCII. *)
Definition unicode_space (c : N) : bool :=
  (c =? 133) || (c =? 160) || (c =? 5760)
  || ((8192 <=? c) && (c <=? 8202))
  || (c =? 8232) || (c =? 8233) || (c =? 8239) || (c =? 8287) || (c =? 12288).

(** ** UTF-8

    [bytes.decode()] with the default codec and error handler: strict
    UTF-8, which refuses overlong forms, surrogates and code points above
    U+10FFFF.  [None] stands for [UnicodeDecodeError]. *)
Definition is_cont (b : N) : bool := (128 <=? b) && (b <=? 191).
Definition in_range (lo hi b : N) : bool := (lo <=? b) && (b <=? hi).

Fixpoint utf8_decode (bs : pybytes) : option pystr :=
  match bs with
  | [] => Some []
  | b1 :: r1 =>
      if b1 <? 128 then option_map (cons b1) (utf8_decode r1)
      else if in_range 194 223 b1 then
        match r1 with
        | b2 :: r2 =>
            if is_cont b2
            then option_map (cons ((b1 - 192) * 64 + (b2 - 128))) (utf8_decode r2)
            else None
        | _ => None
        end
      else if in_range 224 239 b1 then
        match r1 with
        | b2 :: b3 :: r3 =>
            if (if b1 =? 224 then in_range 160 191 b2
                else if b1 =? 237 then in_range 128 159 b2
                else is_cont b2) && is_cont b3
            then option_map
                   (cons ((b1 - 224) * 4096 + (b2 - 128) * 64 + (b3 - 128)))
                   (utf8_decode r3)
            else None
        | _ => None
        end
      else if in_range 240 244 b1 then
        match r1 with
        | b2 :: b3 :: b4 :: r4 =>
            if (if b1 =? 240 then in_range 144 191 b2
                else if b1 =? 244 then in_range 128 143 b2
                else is_cont b2) && is_cont b3 && is_cont b4
            then option_map
                   (cons ((b1 - 240) * 262144 + (b2 - 128) * 4096
                          + (b3 - 128) * 64 + (b4 - 128)))
                   (utf8_decode r4)
            else None
        | _ => None
        end
      else None
  end.

(** ** Dynamic values *)

(** The values the script handles: what [response.json()] can return and
    what the script builds itself.  A dict is kept in insertion order. *)
Inductive pyval : Type :=
| PNone
| PBool (b : bool)
| PInt (z : Z)
| PFloat (f : spec_float)
| PStr (s : pystr)
| PList (l : list pyval)
| PDict (d : list (pystr * pyval)).

Definition pydict := list (pystr * pyval).

(** The exceptions that can reach the script.  Everything the [requests]
    library raises (connection errors, timeouts, [HTTPError] from
    [raise_for_status], [JSONDecodeError] from [json()]) derives from
    [RequestException]; the others are builtin and unrelated to it. *)
Inductive exn : Type :=
| RequestException
| TypeError
| KeyError
| AttributeError
| ValueError
| OverflowError
| UnicodeDecodeError.

Inductive res (A : Type) : Type :=
| Ok (a : A)
| Raise (e : exn).
Arguments Ok {A} a.
Arguments Raise {A} e.

Definition bind {A B} (r : res A) (k : A -> res B) : res B :=
  match r with
  | Ok a => k a
  | Raise e => Raise e
  end.

Declare Scope res_scope.
Delimit Scope res_scope with res.
Notation "x <- r ;; k" := (bind r (fun x => k))
  (at level 61, r at next level, right associativity) : res_scope.

(** [for x in xs: ys.append(f(x))], stopping at the first exception. *)
Fixpoint map_res {A B} (f : A -> res B) (xs : list A) : res (list B) :=
  match xs with
  | [] => Ok []
  | x :: xs' =>
      match f x with
      | Ok y => match map_res f xs' with
                | Ok ys => Ok (y :: ys)
                | Raise e => Raise e
                end
      | Raise e => Raise e
      end
  end.

(** *** Dicts *)

Fixpoint dict_get (d : pydict) (k : pystr) : option pyval :=
  match d with
  | [] => None
  | (k', v) :: d' => if str_eqb k' k then Some v else dict_get d' k
  end.

(** [d[k] = v]: an existing key keeps its position, a new one goes last. *)
Fixpoint dict_set (d : pydict) (k : pystr) (v : pyval) : pydict :=
  match d with
  | [] => [(k, v)]
  | (k', v') :: d' =>
      if str_eqb k' k then (k', v) :: d' else (k', v') :: dict_set d' k v
  end.

(** [dict(pairs)], also what a dict display or comprehension builds. *)
Definition dict_of_pairs (ps : list (pystr * pyval)) : pydict :=
  fold_left (fun d kv => dict_set d (fst kv) (snd kv)) ps [].

Definition dict_keys (d : pydict) : list pystr := map fst d.

(** A Python dict never holds a key twice. *)
Definition dict_wf (d : pydict) : Prop := NoDup (dict_keys d).

(** *** Truth value and comparisons *)

Definition float_is_zero (f : spec_float) : bool :=
  match f with S754_zero _ => true | _ => false end.

(** [bool(v)], as [if v] and [not v] use it. *)
Definition truthy (v : pyval) : bool :=
  match v with
  | PNone => false
  | PBool b => b
  | PInt z => negb (Z.eqb z 0)
  | PFloat f => negb (float_is_zero f)
  | PStr s => match s with [] => false | _ => true end
  | PList l => match l with [] => false | _ => true end
  | PDict d => match d with [] => false | _ => true end
  end.

(** [v == s] for a string [s]: only an equal string is equal to it. *)
Definition eq_str (v : pyval) (s : pystr) : bool :=
  match v with
  | PStr t => str_eqb t s
  | _ => false
  end.

(** [v.get(k)] and [v.get(k, dflt)]: only a dict has the method. *)
Definition py_get (v : pyval) (k : pystr) (dflt : pyval) : res pyval :=
  match v with
  | PDict d => Ok (match dict_get d k with Some x => x | None => dflt end)
  | _ => Raise AttributeError
  end.

(** [k in v] for a string [k]. *)
Definition py_contains (v : pyval) (k : pystr) : res bool :=
  match v with
  | PDict d => Ok (match dict_get d k with Some _ => true | None => false end)
  | PList l => Ok (existsb (fun x => eq_str x k) l)
  | PStr s => Ok (str_contains k s)
  | _ => Raise TypeError
  end.

(** [v[k]] for a string [k]. *)
Definition py_getitem (v : pyval) (k : pystr) : res pyval :=
  match v with
  | PDict d => match dict_get d k with
               | Some x => Ok x
               | None => Raise KeyError
               end
  | _ => Raise TypeError
  end.

(** The items [for x in v] visits. *)
Definition py_iter (v : pyval) : res (list pyval) :=
  match v with
  | PList l => Ok l
  | PDict d => Ok (map PStr (dict_keys d))
  | PStr s => Ok (map (fun c => PStr [c]) s)
  | _ => Raise TypeError
  end.

(** ** Floating point

    A Python [float] is an IEEE 754 binary64 number. *)
Definition float64 := spec_float.

Definition prec64 : Z := 53.
Definition emax64 : Z := 1024.

(** The binary64 number nearest to an integer (ties to even), infinite
    when the integer is out of range. *)
Definition float64_of_Z (z : Z) : float64 :=
  binary_normalize prec64 emax64 z 0 false.

(** The binary64 number nearest to [m * 10 ^ e] for [m >= 0], with the
    sign [neg]: what the correctly rounding [strtod] of CPython computes. *)
Definition float64_of_decimal (neg : bool) (m e : Z) : float64 :=
  match m with
  | Z0 => S754_zero neg
  | Zpos p =>
      if (0 <=? e)%Z
      then binary_normalize prec64 emax64
             (if neg then Z.opp (Zpos p * 10 ^ e) else Zpos p * 10 ^ e)%Z 0 neg
      else
        let '(q, e', l) :=
          SFdiv_core_binary prec64 emax64 (Zpos p) 0 (10 ^ (- e))%Z 0 in
        binary_round_aux prec64 emax64 neg q e' l
  | Zneg _ => S754_nan
  end.

(** *** [float] on text *)

Definition ascii_digit (c : N) : bool := (48 <=? c) && (c <=? 57).

(** [Py_ISSPACE] *)
Definition ascii_space (c : N) : bool :=
  (c =? 32) || ((9 <=? c) && (c <=? 13)).

(** [_PyUnicode_TransformDecimalAndSpaceToASCII]: digits of any script
    become ASCII digits, other spaces become a blank, and the text is cut
    after the first character that is neither (left as a question mark). *)
Fixpoint transform_decimal_and_space (s : pystr) : pystr :=
  match s with
  | [] => []
  | c :: r =>
      if c <? 127 then c :: transform_decimal_and_space r
      else if unicode_space c then 32 :: transform_decimal_and_space r
      else match unicode_decimal c with
           | Some d => (48 + d) :: transform_decimal_and_space r
           | None => [63]
           end
  end.

(** [_Py_string_to_number_with_underscores]: an underscore is allowed
    between two digits only; the text is returned without them. *)
Fixpoint drop_underscores (prev : N) (s : pystr) : option pystr :=
  match s with
  | [] => if prev =? 95 then None else Some []
  | c :: r =>
      if c =? 95 then
        if ascii_digit prev then drop_underscores c r else None
      else if (prev =? 95) && negb (ascii_digit c) then None
      else option_map (cons c) (drop_underscores c r)
  end.

Fixpoint lstrip_space (s : pystr) : pystr :=
  match s with
  | c :: r => if ascii_space c then lstrip_space r else s
  | [] => []
  end.

(** Trailing blanks go, but never the first character. *)
Definition rstrip_space_keep1 (s : pystr) : pystr :=
  match s with
  | [] => []
  | c :: r =>
      c :: fold_right (fun x acc => match acc with
                                    | [] => if ascii_space x then [] else [x]
                                    | _ => x :: acc
                                    end) [] r
  end.

Fixpoint span_digits (s : pystr) : pystr * pystr :=
  match s with
  | c :: r => if ascii_digit c
              then let '(ds, t) := span_digits r in (c :: ds, t)
              else ([], s)
  | [] => ([], [])
  end.

(** The value of a run of ASCII digits. *)
Definition digits_value (ds : pystr) : Z :=
  fold_left (fun acc c => (10 * acc + Z.of_N (c - 48))%Z) ds 0%Z.

Definition split_sign (s : pystr) : bool * pystr :=
  match s with
  | 45 :: r => (true, r)
  | 43 :: r => (false, r)
  | _ => (false, s)
  end.

Definition lower (c : N) : N :=
  if (65 <=? c) && (c <=? 90) then c + 32 else c.

(** [_Py_parse_inf_or_nan], on the text after the sign. *)
Definition parse_inf_or_nan (neg : bool) (s : pystr) : option float64 :=
  let t := map lower s in
  if str_eqb t (str_lit "inf") || str_eqb t (str_lit "infinity")
  then Some (S754_infinity neg)
  else if str_eqb t (str_lit "nan") then Some S754_nan
  else None.

(** A decimal numeral taking the whole text:
    digits, an optional fraction, an optional exponent. *)
Definition parse_decimal (neg : bool) (s : pystr) : option float64 :=
  let '(ip, r1) := span_digits s in
  let '(fp, r2) := match r1 with
                   | 46 :: r => span_digits r
                   | _ => ([], r1)
                   end in
  match ip ++ fp with
  | [] => None
  | ds =>
      let m := digits_value ds in
      let e0 := (- Z.of_nat (List.length fp))%Z in
      match r2 with
      | [] => Some (float64_of_decimal neg m e0)
      | c :: r3 =>
          if (c =? 101) || (c =? 69) then
            let '(eneg, r4) := split_sign r3 in
            let '(ed, r5) := span_digits r4 in
            match ed, r5 with
            | _ :: _, [] =>
                let x := digits_value ed in
                Some (float64_of_decimal neg m
                        (e0 + (if eneg then - x else x))%Z)
            | _, _ => None
            end
          else None
      end
  end.

(** [float(s)] for a [str]; [None] is [ValueError]. *)
Definition float_of_text (s : pystr) : option float64 :=
  let a := transform_decimal_and_space s in
  if existsb (N.eqb 0) a then None
  else
    match (if existsb (N.eqb 95) a then drop_underscores 0 a else Some a) with
    | None => None
    | Some b =>
        match rstrip_space_keep1 (lstrip_space b) with
        | [] => None
        | t =>
            let '(neg, u) := split_sign t in
            match parse_decimal neg u with
            | Some f => Some f
            | None => parse_inf_or_nan neg u
            end
        end
    end.

(** [float(v)] *)
Definition py_float (v : pyval) : res float64 :=
  match v with
  | PFloat f => Ok f
  | PBool b => Ok (float64_of_Z (if b then 1 else 0))
  | PInt z =>
      match float64_of_Z z with
      | S754_infinity _ => Raise OverflowError
      | f => Ok f
      end
  | PStr s =>
      match float_of_text s with
      | Some f => Ok f
      | None => Raise ValueError
      end
  | PNone | PList _ | PDict _ => Raise TypeError
  end.

(** ** Regular expressions

    The one pattern of the script is a sequence of literal texts and
    capturing groups [(\d+)].  The matcher backtracks as Python's does:
    a group first takes the longest run of digits and gives characters
    back one at a time; [re_search] returns the groups of the leftmost
    match. *)
Inductive rx_item : Type :=
| RLit (s : pystr)
| RDigits.

Fixpoint span_unicode_digits (t : pystr) : nat :=
  match t with
  | c :: r => if is_digit c then S (span_unicode_digits r) else O
  | [] => O
  end.

Fixpoint try_lengths (k : nat) (t : pystr)
    (cont : pystr -> option (list pystr)) : option (list pystr) :=
  match k with
  | O => None
  | S k' =>
      match cont (skipn k t) with
      | Some gs => Some (firstn k t :: gs)
      | None => try_lengths k' t cont
      end
  end.

Fixpoint match_items (p : list rx_item) (t : pystr) : option (list pystr) :=
  match p with
  | [] => Some []
  | RLit s :: p' =>
      match strip_prefix s t with
      | Some t' => match_items p' t'
      | None => None
      end
  | RDigits :: p' => try_lengths (span_unicode_digits t) t (match_items p')
  end.

Fixpoint re_search (p : list rx_item) (t : pystr) : option (list pystr) :=
  match match_items p t with
  | Some gs => Some gs
  | None => match t with
            | [] => None
            | _ :: t' => re_search p t'
            end
  end.

(** [r"Humidity A: (\d+)% Humidity B: (\d+)%"] *)
Definition humidity_pattern : list rx_item :=
  [RLit (str_lit "Humidity A: "); RDigits;
   RLit (str_lit "% Humidity B: "); RDigits; RLit (str_lit "%")].

(** ** The network

    Every call of [requests.get] or [requests.post] either fails in
    transport or returns a response.  [json] is what [response.json()]
    gives for the body, [None] when the body is not JSON.  The world
    supplies the outcome of the n-th exchange and records what the script
    did; the script's requests are determined by the outcomes before
    them, so this covers every behaviour of the devices. *)
Record response : Type := {
  status_code : Z;
  content : pybytes;
  json : option pyval
}.

Inductive http_outcome : Type :=
| NetError
| Answer (r : response).

Inductive event : Type :=
| EvGet (url : pystr)
| EvPost (url : pystr) (body : pyval)
| EvSleep (seconds : Z).

Record world : Type := {
  incoming : nat -> http_outcome;
  served : nat;
  trace : list event
}.

Definition exchange (ev : event) (w : world) : res response * world :=
  (match incoming w (served w) with
   | NetError => Raise RequestException
   | Answer r => Ok r
   end,
   {| incoming := incoming w; served := S (served w);
      trace := trace w ++ [ev] |}).

Definition requests_get (url : pystr) (w : world) : res response * world :=
  exchange (EvGet url) w.

Definition requests_post (url : pystr) (body : pyval) (w : world)
  : res response * world :=
  exchange (EvPost url body) w.

Definition time_sleep (seconds : Z) (w : world) : world :=
  {| incoming := incoming w; served := served w;
     trace := trace w ++ [EvSleep seconds] |}.

(** [response.raise_for_status()]: [HTTPError] for a 4xx or 5xx status. *)
Definition raise_for_status (r : response) : res unit :=
  if ((400 <=? status_code r) && (status_code r <? 600))%Z
  then Raise RequestException else Ok tt.

(** [response.json()] *)
Definition response_json (r : response) : res pyval :=
  match json r with
  | Some v => Ok v
  | None => Raise RequestException
  end.

(** [except requests.exceptions.RequestException: <handler>] around a
    block: the handler's value replaces that exception only. *)
Definition except_request {A} (r : res A) (handler : A) : res A :=
  match r with
  | Raise RequestException => Ok handler
  | _ => r
  end.

(** ** Configuration *)

Record device_config : Type := {
  url : pystr;
  dev_type : option pystr;
  common_attributes : option pydict
}.

Definition DEVICES : list device_config :=
  [ {| url := str_lit "http://esp32-plants.local";
       dev_type := Some (str_lit "legacy_html");
       common_attributes := Some
         [ (str_lit "device_id", PStr (str_lit "esp32-plants.local-humidity"));
           (str_lit "location", PStr (str_lit "Winter balcony"));
           (str_lit "soil_type", PStr (str_lit "bad, totally packed with roots")) ] |};
    {| url := str_lit "http://esp32-newname.local";
       dev_type := Some (str_lit "smooth_api");
       common_attributes := Some
         [ (str_lit "device_id", PStr (str_lit "esp32-newname.local-smooth-humidity"));
           (str_lit "location", PStr (str_lit "Living room"));
           (str_lit "soil_type", PStr (str_lit "no idea - whatever came with the plant.")) ] |} ].

Definition OTEL_SERVER_URL : pystr :=
  str_lit "http://192.168.178.36:4318/v1/metrics".
Definition POLL_INTERVAL_SECONDS : Z := 2.

(** [config.get("common_attributes", {})] *)
Definition common_of (config : device_config) : pydict :=
  match common_attributes config with
  | Some d => d
  | None => []
  end.

(** [{"value": v, "attributes": attributes}] *)
Definition measurement (v : float64) (attributes : pydict) : pyval :=
  PDict [(str_lit "value", PFloat v); (str_lit "attributes", PDict attributes)].

(** [{**common, "sensor_id": sensor_id}] *)
Definition with_sensor_id (common : pydict) (sensor_id : pystr) : pydict :=
  dict_set common (str_lit "sensor_id") (PStr sensor_id).

(** ** ESPSensorReader *)

Local Open Scope res_scope.

Module ESPSensorReader.

(** The reader is its base URL, [base_url.rstrip('/')]. *)
Definition init (base_url : pystr) : pystr := rstrip_slash base_url.
Definition api_url (base : pystr) : pystr := base ++ str_lit "/api".
Definition smooth_read_url (base : pystr) : pystr :=
  base ++ str_lit "/api/smooth_humi/read".

(** The [try] block of [get_available_sensors]: [Some] is its [return],
    [None] is falling out of the [if]. *)
Definition sensors_of_response (r : res response)
  : res (option (list pyval)) :=
  response <- r ;;
  _ <- raise_for_status response ;;
  data <- response_json response ;;
  if truthy data then
    has <- py_contains data (str_lit "enabled_sensors") ;;
    if has : bool then
      sensors <- py_getitem data (str_lit "enabled_sensors") ;;
      items <- py_iter sensors ;;
      labels <- map_res (fun sensor => py_getitem sensor (str_lit "label"))
                   items ;;
      Ok (Some labels)
    else Ok None
  else Ok None.

Definition get_available_sensors (base : pystr) (w : world)
  : res (list pyval) * world :=
  let '(r, w1) := requests_get (api_url base) w in
  (found <- except_request (sensors_of_response r) None ;;
   Ok (match found with Some labels => labels | None => [] end),
   w1).

(** One round of the polling loop after the GET: [Some] is the
    [return] of the loop, [None] is going round again. *)
Definition poll_result (r : res response) : res (option pyval) :=
  status_response <- r ;;
  _ <- raise_for_status status_response ;;
  status <- response_json status_response ;;
  running <- py_get status (str_lit "smooth_humi_task_running") (PBool false) ;;
  if negb (truthy running) then
    last <- py_get status (str_lit "last_smooth_humi_result") PNone ;;
    Ok (Some last)
  else Ok None.

(** [while True: ...]; [fuel] bounds the number of rounds the model
    follows, and [None] says the loop was still going after them. *)
Fixpoint poll_loop (fuel : nat) (base : pystr) (w : world)
  : option (res pyval * world) :=
  match fuel with
  | O => None
  | S fuel' =>
      let w1 := time_sleep POLL_INTERVAL_SECONDS w in
      let '(r, w2) := requests_get (api_url base) w1 in
      match poll_result r with
      | Ok (Some last) => Some (Ok last, w2)
      | Ok None => poll_loop fuel' base w2
      | Raise e => Some (Raise e, w2)
      end
  end.

Definition request_smooth_reading (fuel : nat) (base : pystr)
    (sensor_label : pystr) (w : world) : option (res pyval * world) :=
  let payload := PDict [(str_lit "sensor_label", PStr sensor_label)] in
  let '(r, w1) := requests_post (smooth_read_url base) payload w in
  match r with
  | Raise e => Some (except_request (Raise e) PNone, w1)
  | Ok response =>
      if negb (status_code response =? 202)%Z then Some (Ok PNone, w1)
      else
        match poll_loop fuel base w1 with
        | Some (out, w2) => Some (except_request out PNone, w2)
        | None => None
        end
  end.

End ESPSensorReader.

(** ** Fetchers *)

(** The body of the [try] of the legacy fetcher after the GET; [Ok] is
    the list the function returns. *)
Definition legacy_measurements (config : device_config) (r : res response)
  : res (list pyval) :=
  response <- r ;;
  _ <- raise_for_status response ;;
  text <- match utf8_decode (content response) with
          | Some t => Ok t
          | None => Raise UnicodeDecodeError
          end ;;
  match re_search humidity_pattern text with
  | None => Ok []
  | Some humidity_values =>
      let sensor_data :=
        dict_of_pairs
          (combine [str_lit "Sensor A"; str_lit "Sensor B"]
                   (map PStr humidity_values)) in
      map_res (fun item : pystr * pyval =>
                 let '(sensor_id, value) := item in
                 let attributes := with_sensor_id (common_of config) sensor_id in
                 v <- py_float value ;;
                 Ok (measurement v attributes))
              sensor_data
  end.

Definition fetch_from_legacy_html_device (config : device_config) (w : world)
  : res (list pyval) * world :=
  let '(r, w1) := requests_get (url config ++ str_lit "/watering_pumps") w in
  (except_request (legacy_measurements config r) [], w1).

(** The strings of a list, if all its items are strings. *)
Fixpoint all_strings (xs : list pyval) : option (list pystr) :=
  match xs with
  | [] => Some []
  | PStr s :: xs' => option_map (cons s) (all_strings xs')
  | _ :: _ => None
  end.

(** What the loop body does with a reading: [Some] measurement to
    append, or nothing. *)
Definition smooth_measurement (config : device_config) (label : pystr)
    (result : pyval) : res (option pyval) :=
  matches <- (if truthy result
              then echoed <- py_get result (str_lit "sensor_label") PNone ;;
                   Ok (eq_str echoed label)
              else Ok false) ;;
  if matches : bool then
    let attributes := with_sensor_id (common_of config) label in
    value <- py_get result (str_lit "average_humidity_percent") PNone ;;
    v <- py_float value ;;
    Ok (Some (measurement v attributes))
  else Ok None.

Fixpoint smooth_loop (fuel : nat) (config : device_config) (base : pystr)
    (labels : list pystr) (measurements : list pyval) (w : world)
  : option (res (list pyval) * world) :=
  match labels with
  | [] => Some (Ok measurements, w)
  | label :: rest =>
      match ESPSensorReader.request_smooth_reading fuel base label w with
      | None => None
      | Some (Raise e, w1) => Some (Raise e, w1)
      | Some (Ok result, w1) =>
          match smooth_measurement config label result with
          | Raise e => Some (Raise e, w1)
          | Ok (Some m) =>
              smooth_loop fuel config base rest (measurements ++ [m]) w1
          | Ok None => smooth_loop fuel config base rest measurements w1
          end
      end
  end.

Definition fetch_from_smooth_api_device (fuel : nat) (config : device_config)
    (w : world) : option (res (list pyval) * world) :=
  let reader := ESPSensorReader.init (url config) in
  let '(found, w1) := ESPSensorReader.get_available_sensors reader w in
  match found with
  | Raise e => Some (Raise e, w1)
  | Ok sensor_labels =>
      if negb (truthy (PList sensor_labels)) then Some (Ok [], w1)
      else
        (* [', '.join(sensor_labels)] of the progress message *)
        match all_strings sensor_labels with
        | None => Some (Raise TypeError, w1)
        | Some labels => smooth_loop fuel config reader labels [] w1
        end
  end.

(** ** OpenTelemetry formatting *)

(** [isinstance(val, str)], [isinstance(val, (int, float))] and
    [isinstance(val, bool)]; [bool] is a subclass of [int]. *)
Definition is_str (v : pyval) : bool :=
  match v with PStr _ => true | _ => false end.
Definition is_int_or_float (v : pyval) : bool :=
  match v with PInt _ | PFloat _ | PBool _ => true | _ => false end.
Definition is_bool (v : pyval) : bool :=
  match v with PBool _ => true | _ => false end.

(** [{"key": key, "value": {kind: v}}] *)
Definition otel_entry (key : pystr) (kind : string) (v : pyval) : pyval :=
  PDict [(str_lit "key", PStr key);
         (str_lit "value", PDict [(str_lit kind, v)])].

(** The [if]/[elif] chain on one attribute: the entry to append, if any. *)
Definition otel_attribute (item : pystr * pyval) : res (option pyval) :=
  let '(key, val) := item in
  if is_str val then Ok (Some (otel_entry key "stringValue" val))
  else if is_int_or_float val then
    f <- py_float val ;;
    Ok (Some (otel_entry key "doubleValue" (PFloat f)))
  else if is_bool val then Ok (Some (otel_entry key "boolValue" val))
  else Ok None.

(** [for key, val in attributes.items(): ...] *)
Fixpoint otel_attributes (items : pydict) : res (list pyval) :=
  match items with
  | [] => Ok []
  | item :: rest =>
      e <- otel_attribute item ;;
      es <- otel_attributes rest ;;
      Ok (match e with Some x => x :: es | None => es end)
  end.

(** [attributes.items()] *)
Definition py_items (v : pyval) : res pydict :=
  match v with
  | PDict d => Ok d
  | _ => Raise AttributeError
  end.

Definition otel_data_point (timestamp : Z) (m : pyval) : res pyval :=
  attributes <- py_get m (str_lit "attributes") (PDict []) ;;
  items <- py_items attributes ;;
  otel_attrs <- otel_attributes items ;;
  value <- py_get m (str_lit "value") PNone ;;
  v <- py_float value ;;
  Ok (PDict [(str_lit "startTimeUnixNano", PInt timestamp);
             (str_lit "timeUnixNano", PInt timestamp);
             (str_lit "asDouble", PFloat v);
             (str_lit "attributes", PList otel_attrs)]).

Definition otel_envelope (metric_name unit_ : pystr) (points : list pyval)
  : pyval :=
  PDict [(str_lit "resourceMetrics", PList [PDict [
    (str_lit "resource", PDict [(str_lit "attributes", PList [
       otel_entry (str_lit "service.name") "stringValue"
         (PStr (str_lit "multi-device-plant-monitor"))])]);
    (str_lit "scopeMetrics", PList [PDict [
       (str_lit "scope", PDict [(str_lit "name", PStr (str_lit "iot-soil-monitoring"));
                                (str_lit "version", PStr (str_lit "1.1.0"))]);
       (str_lit "metrics", PList [PDict [
          (str_lit "name", PStr metric_name);
          (str_lit "description",
             PStr (str_lit "Soil moisture measurements from multiple IoT devices"));
          (str_lit "unit", PStr unit_);
          (str_lit "gauge", PDict [(str_lit "dataPoints", PList points)])]])]])]])].

(** [timestamp] is the reading of the clock, in nanoseconds, that the
    function takes once at its start. *)
Definition _format_for_otel (metric_name unit_ : pystr) (timestamp : Z)
    (all_measurements : list pyval) : res pyval :=
  otel_data_points <- map_res (otel_data_point timestamp) all_measurements ;;
  if negb (truthy (PList otel_data_points)) then Ok PNone
  else Ok (otel_envelope metric_name unit_ otel_data_points).

(** ** Main execution logic *)

Inductive fetcher : Type := LegacyHtml | SmoothApi.

(** [FETCHER_MAP.get(device_type)] *)
Definition FETCHER_MAP_get (device_type : option pystr) : option fetcher :=
  match device_type with
  | None => None
  | Some t =>
      if str_eqb t (str_lit "legacy_html") then Some LegacyHtml
      else if str_eqb t (str_lit "smooth_api") then Some SmoothApi
      else None
  end.

Definition run_fetcher (f : fetcher) (fuel : nat) (config : device_config)
    (w : world) : option (res (list pyval) * world) :=
  match f with
  | LegacyHtml => Some (fetch_from_legacy_html_device config w)
  | SmoothApi => fetch_from_smooth_api_device fuel config w
  end.

(** The loop over the devices, [all_measurements] being extended. *)
Fixpoint collect (fuel : nat) (devices : list device_config)
    (all_measurements : list pyval) (w : world)
  : option (res (list pyval) * world) :=
  match devices with
  | [] => Some (Ok all_measurements, w)
  | device_config :: rest =>
      match FETCHER_MAP_get (dev_type device_config) with
      | Some fetcher_function =>
          match run_fetcher fetcher_function fuel device_config w with
          | None => None
          | Some (Raise e, w1) => Some (Raise e, w1)
          | Some (Ok measurements, w1) =>
              collect fuel rest (all_measurements ++ measurements) w1
          end
      | None => collect fuel rest all_measurements w
      end
  end.

(** The final POST and its [except] clause. *)
Definition send_message (otel_message : pyval) (w : world) : res unit * world :=
  let '(r, w1) := requests_post OTEL_SERVER_URL otel_message w in
  (except_request (response <- r ;; raise_for_status response) tt, w1).

Definition collect_and_send_metrics (fuel : nat)
    (devices : list device_config) (timestamp : Z) (w : world)
  : option (res unit * world) :=
  match collect fuel devices [] w with
  | None => None
  | Some (Raise e, w1) => Some (Raise e, w1)
  | Some (Ok all_measurements, w1) =>
      if negb (truthy (PList all_measurements)) then Some (Ok tt, w1)
      else
        match _format_for_otel (str_lit "soil_moisture_percentage")
                (str_lit "%") timestamp all_measurements with
        | Raise e => Some (Raise e, w1)
        | Ok PNone => Some (Ok tt, w1)
        | Ok otel_message => Some (send_message otel_message w1)
        end
  end.

(** ** Vocabulary of the statements *)

(** A non-empty run of decimal digits, as [\d+] matches one. *)
Definition digit_run (ds : pystr) : Prop :=
  ds <> [] /\ forallb is_digit ds = true.

(** The number a run of digits of any script writes. *)
Definition decimal_value (ds : pystr) : Z :=
  fold_left (fun acc c =>
               (10 * acc + match unicode_decimal c with
                           | Some d => Z.of_N d
                           | None => 0
                           end)%Z) ds 0%Z.

(** A text in which [Humidity A: d1% Humidity B: d2%] occurs after [pre]. *)
Definition humidity_text (pre d1 d2 suf : pystr) : pystr :=
  pre ++ str_lit "Humidity A: " ++ d1 ++ str_lit "% Humidity B: " ++ d2
      ++ str_lit "%" ++ suf.

Definition has_humidity_match (text : pystr) : Prop :=
  exists pre d1 d2 suf,
    digit_run d1 /\ digit_run d2 /\ text = humidity_text pre d1 d2 suf.

(** The two measurements of a legacy device for the digit runs [d1], [d2]. *)
Definition legacy_pair (config : device_config) (d1 d2 : pystr) : list pyval :=
  [measurement (float64_of_Z (decimal_value d1))
     (with_sensor_id (common_of config) (str_lit "Sensor A"));
   measurement (float64_of_Z (decimal_value d2))
     (with_sensor_id (common_of config) (str_lit "Sensor B"))].

(** A response that [raise_for_status] lets through. *)
Definition status_ok (r : response) : Prop := raise_for_status r = Ok tt.

(** The code points [unicode_space] accepts. *)
Definition space_points : list N :=
  [133; 160; 5760; 8192; 8193; 8194; 8195; 8196; 8197; 8198; 8199; 8200;
   8201; 8202; 8232; 8233; 8239; 8287; 12288].

(** The ASCII digit [float] reads for a digit of any script. *)
Definition ascii_of_digit (c : N) : N :=
  match unicode_decimal c with
  | Some d => 48 + d
  | None => c
  end.

(** *** The status a smooth-API device reports *)










(** *** Smooth readings *)

(** The outcome of one averaging task, as the device reports it. *)
Record SmoothReadResult : Type := {
  sensorLabel : pystr;
  averageHumidityPercent : float64
}.


(** What the sensor [label] contributes for the reading [r]. *)
Definition expected_measurement (config : device_config) (label : pystr)
    (r : option SmoothReadResult) : list pyval :=
  match r with
  | Some r =>
      if str_eqb (sensorLabel r) label
      then [measurement (averageHumidityPercent r)
              (with_sensor_id (common_of config) label)]
      else []
  | None => []
  end.

Definition expected_measurements (config : device_config)
    (reads : list (pystr * option SmoothReadResult)) : list pyval :=
  flat_map (fun lr => expected_measurement config (fst lr) (snd lr)) reads.


(** The [sensor_id] and the attribute keys of a measurement. *)
Definition measurement_attributes (m : pyval) : option pydict :=
  match m with
  | PDict d => match dict_get d (str_lit "attributes") with
               | Some (PDict a) => Some a
               | _ => None
               end
  | _ => None
  end.

(** *** Posts to the collector *)

Definition collector_post (ev : event) : bool :=
  match ev with
  | EvPost u _ => str_eqb u OTEL_SERVER_URL
  | _ => false
  end.

(** The POSTs to the collector that a trace records. *)
Definition collector_posts (t : list event) : list event :=
  filter collector_post t.

(** *** Reading an envelope back *)

(** Modelled from the spec: the repository has no reader of envelopes;
    this one follows the envelope the spec describes (one resource, one
    scope, one gauge metric, a data point per measurement with its
    [asDouble] value and its typed attribute entries) and gives back the
    measurements.  The absent envelope carries none. *)
Definition field (k : string) (v : pyval) : option pyval :=
  match v with
  | PDict d => dict_get d (str_lit k)
  | _ => None
  end.

Definition first_item (v : pyval) : option pyval :=
  match v with
  | PList (x :: _) => Some x
  | _ => None
  end.

Definition obind {A B} (o : option A) (k : A -> option B) : option B :=
  match o with
  | Some a => k a
  | None => None
  end.

Definition parse_attribute (e : pyval) : option (pystr * pyval) :=
  match field "key" e, field "value" e with
  | Some (PStr k), Some (PDict [(kind, x)]) =>
      match x with
      | PStr _ => if str_eqb kind (str_lit "stringValue") then Some (k, x) else None
      | PFloat _ => if str_eqb kind (str_lit "doubleValue") then Some (k, x) else None
      | PBool _ => if str_eqb kind (str_lit "boolValue") then Some (k, x) else None
      | _ => None
      end
  | _, _ => None
  end.

Fixpoint parse_all {A} (f : pyval -> option A) (xs : list pyval)
  : option (list A) :=
  match xs with
  | [] => Some []
  | x :: xs' =>
      obind (f x) (fun y => obind (parse_all f xs') (fun ys => Some (y :: ys)))
  end.

Definition parse_point (p : pyval) : option pyval :=
  match field "asDouble" p, field "attributes" p with
  | Some (PFloat v), Some (PList entries) =>
      obind (parse_all parse_attribute entries)
            (fun pairs => Some (measurement v (dict_of_pairs pairs)))
  | _, _ => None
  end.

Definition parse_envelope (envelope : pyval) : option (list pyval) :=
  match envelope with
  | PNone => Some []
  | _ =>
      obind (field "resourceMetrics" envelope) (fun rms =>
      obind (first_item rms) (fun rm =>
      obind (field "scopeMetrics" rm) (fun sms =>
      obind (first_item sms) (fun sm =>
      obind (field "metrics" sm) (fun metrics =>
      obind (first_item metrics) (fun metric =>
      obind (field "gauge" metric) (fun gauge =>
      obind (field "dataPoints" gauge) (fun points =>
      match points with
      | PList ps => parse_all parse_point ps
      | _ => None
      end))))))))
  end.

(** An attribute value that the envelope keeps as it is. *)
Definition kept_value (v : pyval) : Prop :=
  match v with
  | PStr _ | PFloat _ => True
  | _ => False
  end.

(** A measurement with a float value whose attributes are strings or
    floats: what the fetchers produce from string common attributes. *)
Definition plain_measurement (m : pyval) : Prop :=
  exists v attrs,
    m = measurement v attrs /\ dict_wf attrs
    /\ Forall (fun kv => kept_value (snd kv)) attrs.

(** *** Further vocabulary *)


(** The world after one GET of [u]. *)
Definition after_get (u : pystr) (w : world) : world :=
  {| incoming := incoming w;
     served := S (served w);
     trace := trace w ++ [EvGet u] |}.

(** The exchange fails the way [requests] reports: in transport, or by
    an error status. *)
Definition request_fails (o : http_outcome) : Prop :=
  o = NetError
  \/ exists r, o = Answer r /\ raise_for_status r = Raise RequestException.


(** The device type has a fetcher. *)
Definition known_type (d : device_config) : bool :=
  match FETCHER_MAP_get (dev_type d) with
  | Some _ => true
  | None => false
  end.

(** The attribute values the formatter has an entry for. *)
Definition supported_value (v : pyval) : bool := is_str v || is_int_or_float v.

Definition supported_attributes (attrs : pydict) : pydict :=
  filter (fun kv => supported_value (snd kv)) attrs.

(** A run of slashes. *)
Definition slashes (n : nat) : pystr := repeat 47 n.



(** The data point of a reading [v] with the attribute entries given. *)
Definition data_point (timestamp : Z) (v : float64) (entries : list pyval)
  : pyval :=
  PDict [(str_lit "startTimeUnixNano", PInt timestamp);
         (str_lit "timeUnixNano", PInt timestamp);
         (str_lit "asDouble", PFloat v);
         (str_lit "attributes", PList entries)].

(** Both time stamps of a data point are [timestamp]. *)
Definition stamped (timestamp : Z) (p : pyval) : Prop :=
  field "startTimeUnixNano" p = Some (PInt timestamp)
  /\ field "timeUnixNano" p = Some (PInt timestamp).

(** Common attributes as the configuration has them: a dict of strings. *)
Definition string_attributes (d : pydict) : Prop :=
  dict_wf d /\ Forall (fun kv => is_str (snd kv) = true) d.

(** ** Sample inputs *)

Module Samples.

Local Open Scope string_scope.

Definition answer (status : Z) (body : pybytes) (js : option pyval)
  : http_outcome :=
  Answer {| status_code := status; content := body; json := js |}.

Definition json_answer (status : Z) (js : pyval) : http_outcome :=
  answer status [] (Some js).

(** A world at its start whose exchanges are answered by [f]. *)
Definition world_of (f : nat -> http_outcome) : world :=
  {| incoming := f; served := O; trace := [] |}.

Definition obj (fields : list (string * pyval)) : pyval :=
  PDict (map (fun kv => (str_lit (fst kv), snd kv)) fields).

Definition text (s : string) : pyval := PStr (str_lit s).

Definition legacy_config : device_config :=
  {| url := str_lit "http://esp32-plants.local";
     dev_type := Some (str_lit "legacy_html");
     common_attributes := Some [(str_lit "location", text "Winter balcony")] |}.

Definition smooth_config : device_config :=
  {| url := str_lit "http://esp32-newname.local/";
     dev_type := Some (str_lit "smooth_api");
     common_attributes := Some [(str_lit "location", text "Living room")] |}.

(** A device configured with a [sensor_id] of its own. *)
Definition tagged_config : device_config :=
  {| url := str_lit "http://esp32-newname.local";
     dev_type := Some (str_lit "smooth_api");
     common_attributes := Some [(str_lit "sensor_id", text "configured");
                                (str_lit "location", text "Living room")] |}.

(** The capability listing [{"enabled_sensors": [{"label": l}, ...]}]. *)
Definition listing (labels : list string) : pyval :=
  obj [("enabled_sensors",
        PList (map (fun l => obj [("label", text l)]) labels))].

Definition running : pyval := obj [("smooth_humi_task_running", PBool true)].

Definition finished (last : pyval) : pyval :=
  obj [("smooth_humi_task_running", PBool false);
       ("last_smooth_humi_result", last)].

Definition reading (label : string) (percent : Z) : pyval :=
  obj [("sensor_label", text label);
       ("average_humidity_percent", PFloat (float64_of_Z percent));
       ("average_raw_value", PFloat (float64_of_Z 2000))].

(** A measurement with one boolean attribute. *)
Definition bool_measurement : pyval :=
  measurement (float64_of_Z 55) [(str_lit "indoor", PBool true)].

(** One sensor, whose finished task lacks [average_humidity_percent]. *)
Definition device_without_average (n : nat) : http_outcome :=
  match n with
  | O => json_answer 200 (listing ["top"])
  | S O => json_answer 202 (obj [("status", text "accepted")])
  | _ => json_answer 200 (finished (obj [("sensor_label", text "top")]))
  end.

(** A capability listing with an entry that has no [label]. *)
Definition device_without_label (n : nat) : http_outcome :=
  json_answer 200 (obj [("enabled_sensors", PList [obj []])]).

End Samples.

Module LegacySamples.

Local Open Scope string_scope.

(** The page of the legacy device. *)
Definition page : string := "<p>Humidity A: 42% Humidity B: 7%</p>".

Definition page_world : world :=
  Samples.world_of (fun _ => Samples.answer 200 (str_lit page) None).

(** The same page served with an error status. *)
Definition unavailable_world : world :=
  Samples.world_of (fun _ => Samples.answer 503 (str_lit page) None).

(** A body that is not UTF-8. *)
Definition undecodable_world : world :=
  Samples.world_of (fun _ => Samples.answer 200 [255%N] None).

End LegacySamples.

Module PollSamples.

Local Open Scope string_scope.



End PollSamples.

Module SmoothSamples.

Local Open Scope string_scope.

(** Four sensors: [top] is read; the read for [bottom] echoes another
    label; the task for [left] is refused; [right] is read. *)
Definition four_sensors (n : nat) : http_outcome :=
  match n with
  | 0 => Samples.json_answer 200
           (Samples.listing ["top"; "bottom"; "left"; "right"])
  | 1 => Samples.json_answer 202 (Samples.obj [])
  | 2 => Samples.json_answer 200 (Samples.finished (Samples.reading "top" 55))
  | 3 => Samples.json_answer 202 (Samples.obj [])
  | 4 => Samples.json_answer 200 (Samples.finished (Samples.reading "side" 31))
  | 5 => Samples.json_answer 503 (Samples.obj [])
  | 6 => Samples.json_answer 202 (Samples.obj [])
  | _ => Samples.json_answer 200 (Samples.finished (Samples.reading "right" 40))
  end%nat.

Definition result (label : string) (percent : Z) : option SmoothReadResult :=
  Some {| sensorLabel := str_lit label;
          averageHumidityPercent := float64_of_Z percent |}.

Definition four_reads : list (pystr * option SmoothReadResult) :=
  [(str_lit "top", result "top" 55);
   (str_lit "bottom", result "side" 31);
   (str_lit "left", None);
   (str_lit "right", result "right" 40)].

End SmoothSamples.

Module CycleSamples.

(** No device can be reached. *)
Definition unreachable_world : world := Samples.world_of (fun _ => NetError).

End CycleSamples.

Module RoundTripSamples.

Local Open Scope string_scope.

(** A measurement with an integer attribute that no binary64 number
    equals: 2^53 + 1. *)
Definition counted : pyval :=
  measurement (float64_of_Z 55)
    [(str_lit "sensor_id", Samples.text "top");
     (str_lit "samples", PInt 9007199254740993)].

(** The measurement of the spec's example. *)
Definition d1_s1 : pyval :=
  measurement (float64_of_decimal false 555 (-1))
    [(str_lit "device_id", Samples.text "d1");
     (str_lit "sensor_id", Samples.text "s1")].

End RoundTripSamples.

Module ExtraSamples.

Local Open Scope string_scope.

Definition base : pystr := str_lit "http://esp32-newname.local".







(** A listing whose second label is a number. *)
Definition numbered_world : world :=
  Samples.world_of (fun _ =>
    Samples.json_answer 200
      (Samples.obj [("enabled_sensors",
                     PList [Samples.obj [("label", Samples.text "top")];
                            Samples.obj [("label", PInt 2)]])])).

(** A measurement with attributes of every kind. *)
Definition mixed_attributes : pydict :=
  [(str_lit "sensor_id", Samples.text "top");
   (str_lit "note", PNone);
   (str_lit "depth", PInt 12);
   (str_lit "tags", PList [Samples.text "a"]);
   (str_lit "indoor", PBool true)].

(** A device of a type without a fetcher. *)
Definition unknown_config : device_config :=
  {| url := str_lit "http://esp32-other.local";
     dev_type := Some (str_lit "mqtt");
     common_attributes := None |}.


End ExtraSamples.

Module FirstOccurrence.

Local Open Scope string_scope.

(** A page on which the pattern occurs twice. *)
Definition page : string :=
  "<p>Humidity A: 42% Humidity B: 7%</p><p>Humidity A: 1% Humidity B: 2%</p>".

Definition world_ : world :=
  Samples.world_of (fun _ => Samples.answer 200 (str_lit page) None).

End FirstOccurrence.

Module CycleExtra.

(** A cycle over a device of unknown type and the legacy device, with a
    collector that answers 500. *)
Definition devices : list device_config :=
  [ExtraSamples.unknown_config; Samples.legacy_config].



End CycleExtra.

Module ResultSamples.

Local Open Scope string_scope.


End ResultSamples.

(** * Properties *)

(** ** Text, dicts and results *)

Lemma str_eqb_eq (a b : pystr) : str_eqb a b = true <-> a = b.
Proof.
  unfold str_eqb. destruct (list_eq_dec N.eq_dec a b); split; congruence.
Qed.

Lemma str_eqb_refl (a : pystr) : str_eqb a a = true.
Proof. now apply str_eqb_eq. Qed.

Lemma str_eqb_neq (a b : pystr) : str_eqb a b = false <-> a <> b.
Proof.
  unfold str_eqb. destruct (list_eq_dec N.eq_dec a b); split; congruence.
Qed.

Lemma strip_prefix_app (p t : pystr) : strip_prefix p (p ++ t) = Some t.
Proof.
  induction p as [|c p IH]; simpl; [reflexivity|].
  now rewrite N.eqb_refl.
Qed.

Lemma strip_prefix_inv (p t t' : pystr) :
  strip_prefix p t = Some t' -> t = p ++ t'.
Proof.
  revert t. induction p as [|c p IH]; intros t H; simpl in *.
  - congruence.
  - destruct t as [|d t]; [discriminate|].
    destruct (N.eqb_spec c d); [|discriminate].
    subst. f_equal. now apply IH.
Qed.

Lemma dict_get_set_same (d : pydict) (k : pystr) (v : pyval) :
  dict_get (dict_set d k v) k = Some v.
Proof.
  induction d as [|[k' v'] d IH]; simpl.
  - now rewrite str_eqb_refl.
  - destruct (str_eqb k' k) eqn:E; simpl; rewrite E; [reflexivity | exact IH].
Qed.

Lemma dict_get_set_other (d : pydict) (k k' : pystr) (v : pyval) :
  k <> k' -> dict_get (dict_set d k v) k' = dict_get d k'.
Proof.
  intros Hne. induction d as [|[k0 v0] d IH]; simpl.
  - apply str_eqb_neq in Hne. now rewrite Hne.
  - destruct (str_eqb k0 k) eqn:E; simpl.
    + apply str_eqb_eq in E. subst k0.
      apply str_eqb_neq in Hne. now rewrite Hne.
    + now rewrite IH.
Qed.

(** Setting a key that is present changes no key and no position. *)
Lemma dict_keys_set_present (d : pydict) (k : pystr) (v x : pyval) :
  dict_get d k = Some x -> dict_keys (dict_set d k v) = dict_keys d.
Proof.
  induction d as [|[k' v'] d IH]; simpl; [discriminate|].
  destruct (str_eqb k' k) eqn:E; simpl; intros H.
  - reflexivity.
  - f_equal. now apply IH.
Qed.

(** Setting a key that is absent appends it. *)
Lemma dict_set_absent (d : pydict) (k : pystr) (v : pyval) :
  dict_get d k = None -> dict_set d k v = d ++ [(k, v)].
Proof.
  induction d as [|[k' v'] d IH]; simpl; [reflexivity|].
  destruct (str_eqb k' k) eqn:E; [discriminate|].
  intros H. now rewrite IH.
Qed.

Lemma map_res_length {A B} (f : A -> res B) (xs : list A) (ys : list B) :
  map_res f xs = Ok ys -> List.length ys = List.length xs.
Proof.
  revert ys. induction xs as [|x xs IH]; simpl; intros ys H.
  - now inversion H.
  - destruct (f x); [|discriminate].
    destruct (map_res f xs); [|discriminate].
    inversion H; subst. simpl. f_equal. now apply IH.
Qed.

(** ** Boolean attributes in the formatter *)

(** The [isinstance(val, (int, float))] test comes before the
    [isinstance(val, bool)] test and accepts every [bool]. *)
Lemma is_bool_is_int (v : pyval) : is_bool v = true -> is_int_or_float v = true.
Proof. destruct v; simpl; congruence. Qed.

Lemma otel_attribute_bool (key : pystr) (b : bool) :
  otel_attribute (key, PBool b) =
  Ok (Some (otel_entry key "doubleValue"
              (PFloat (float64_of_Z (if b then 1 else 0))))).
Proof. reflexivity. Qed.

(** No attribute value makes the formatter produce a [boolValue] entry. *)
Lemma otel_attribute_never_bool (key : pystr) (v x : pyval) :
  otel_attribute (key, v) <> Ok (Some (otel_entry key "boolValue" x)).
Proof.
  unfold otel_attribute.
  destruct v; simpl; try discriminate.
  destruct (float64_of_Z z); simpl; discriminate.
Qed.

(** C1: a measurement whose attributes bind a key to a boolean should get
    a [boolValue] entry for it.  The code gives it a [doubleValue] entry:
    for the measurement with the one attribute [indoor: True] the data
    point carries [doubleValue 1.0], and a [boolValue] entry is produced
    for no attribute at all. *)
Theorem C1_bool_attribute_formatted_as_double :
  otel_data_point 0 Samples.bool_measurement =
    Ok (PDict [(str_lit "startTimeUnixNano", PInt 0);
               (str_lit "timeUnixNano", PInt 0);
               (str_lit "asDouble", PFloat (float64_of_Z 55));
               (str_lit "attributes",
                PList [otel_entry (str_lit "indoor") "doubleValue"
                         (PFloat (float64_of_Z 1))])])
  /\ (forall key b,
        otel_attribute (key, PBool b) <>
        Ok (Some (otel_entry key "boolValue" (PBool b)))).
Proof.
  split.
  - vm_compute. reflexivity.
  - intros key b. apply otel_attribute_never_bool.
Qed.

(** ** Missing JSON fields *)

(** C2: a finished task whose result echoes the label but has no
    [average_humidity_percent] should give no measurement and no error.
    The code calls [float(None)]: the fetcher raises [TypeError], which
    no handler catches, and the whole collection ends with it. *)
Theorem C2_missing_average_raises :
  forall fuel timestamp,
    option_map fst
      (fetch_from_smooth_api_device (S fuel) Samples.smooth_config
         (Samples.world_of Samples.device_without_average))
    = Some (Raise TypeError)
    /\ option_map fst
         (collect_and_send_metrics (S fuel) [Samples.smooth_config] timestamp
            (Samples.world_of Samples.device_without_average))
       = Some (Raise TypeError).
Proof.
  intros fuel timestamp. split; vm_compute; reflexivity.
Qed.


(** C3: a capability listing whose entry has no [label] should give the
    empty sequence.  The code subscripts the entry: [KeyError] leaves
    [get_available_sensors], and the fetcher with it. *)
Theorem C3_entry_without_label_raises :
  forall base fuel,
    fst (ESPSensorReader.get_available_sensors base
           (Samples.world_of Samples.device_without_label))
    = Raise KeyError
    /\ option_map fst
         (fetch_from_smooth_api_device fuel Samples.smooth_config
            (Samples.world_of Samples.device_without_label))
       = Some (Raise KeyError).
Proof.
  intros base fuel. split; vm_compute; reflexivity.
Qed.

(** ** The humidity pattern *)

Lemma span_unicode_digits_firstn (t : pystr) (k : nat) :
  (k <= span_unicode_digits t)%nat -> forallb is_digit (firstn k t) = true.
Proof.
  revert k. induction t as [|c t IH]; intros k Hk; simpl in *.
  - now destruct k.
  - destruct k as [|k]; [reflexivity|]. simpl.
    destruct (is_digit c); [|lia].
    simpl. apply IH. lia.
Qed.

Lemma span_unicode_digits_le (t : pystr) :
  (span_unicode_digits t <= List.length t)%nat.
Proof.
  induction t as [|c t IH]; simpl; [lia|].
  destruct (is_digit c); lia.
Qed.

(** A run of digits followed by something else is spanned exactly. *)
Lemma span_unicode_digits_app (ds : pystr) (c : N) (t : pystr) :
  forallb is_digit ds = true -> is_digit c = false ->
  span_unicode_digits (ds ++ c :: t) = List.length ds.
Proof.
  intros Hds Hc. induction ds as [|d ds IH]; simpl in *.
  - now rewrite Hc.
  - apply andb_true_iff in Hds as [Hd Hds]. rewrite Hd. f_equal. now apply IH.
Qed.

Lemma try_lengths_some (K : nat) (t : pystr)
    (cont : pystr -> option (list pystr)) (gs : list pystr) :
  try_lengths K t cont = Some gs ->
  exists k rest, (1 <= k <= K)%nat /\ gs = firstn k t :: rest
                 /\ cont (skipn k t) = Some rest.
Proof.
  induction K as [|K IH]; cbn [try_lengths]; [discriminate|].
  destruct (cont (skipn (S K) t)) as [rest|] eqn:E.
  - intros H. inversion H; subst. exists (S K), rest. repeat split; try lia; auto.
  - intros H. destruct (IH H) as (k & rest & Hk & -> & Hc).
    exists k, rest. repeat split; try lia; auto.
Qed.

(** The longest run is tried first. *)
Lemma try_lengths_longest (K : nat) (t : pystr)
    (cont : pystr -> option (list pystr)) (rest : list pystr) :
  cont (skipn (S K) t) = Some rest ->
  try_lengths (S K) t cont = Some (firstn (S K) t :: rest).
Proof. intros H. cbn [try_lengths]. now rewrite H. Qed.

Lemma firstn_app_exact {A} (xs ys : list A) :
  firstn (List.length xs) (xs ++ ys) = xs.
Proof. induction xs; simpl; [now destruct ys | now f_equal]. Qed.

Lemma skipn_app_exact {A} (xs ys : list A) :
  skipn (List.length xs) (xs ++ ys) = ys.
Proof. induction xs; simpl; auto. Qed.

(** What a match of the pattern at the start of a text looks like. *)
Lemma match_humidity_inv (t : pystr) (gs : list pystr) :
  match_items humidity_pattern t = Some gs ->
  exists d1 d2 suf,
    gs = [d1; d2] /\ digit_run d1 /\ digit_run d2
    /\ t = humidity_text [] d1 d2 suf.
Proof.
  unfold humidity_pattern. cbn [match_items].
  destruct (strip_prefix (str_lit "Humidity A: ") t) as [t1|] eqn:E1;
    [|discriminate].
  apply strip_prefix_inv in E1. intros H.
  apply try_lengths_some in H as (k1 & rest1 & Hk1 & -> & H).
  destruct (strip_prefix (str_lit "% Humidity B: ") (skipn k1 t1))
    as [t2|] eqn:E2; [|discriminate].
  apply strip_prefix_inv in E2.
  apply try_lengths_some in H as (k2 & rest2 & Hk2 & -> & H).
  destruct (strip_prefix (str_lit "%") (skipn k2 t2)) as [t3|] eqn:E3;
    [|discriminate].
  apply strip_prefix_inv in E3. inversion H; subst rest2.
  exists (firstn k1 t1), (firstn k2 t2), t3.
  assert (Hne : forall k (u : pystr), (1 <= k <= span_unicode_digits u)%nat ->
                                      firstn k u <> []).
  { intros k u Hk Hnil.
    pose proof (span_unicode_digits_le u).
    apply (f_equal (@List.length N)) in Hnil.
    rewrite length_firstn in Hnil. simpl in Hnil. lia. }
  split; [reflexivity|].
  split; [split; [now apply Hne | apply span_unicode_digits_firstn; lia]|].
  split; [split; [now apply Hne | apply span_unicode_digits_firstn; lia]|].
  subst t. unfold humidity_text. change ([] ++ ?x) with x. f_equal.
  etransitivity; [symmetry; apply (firstn_skipn k1)|]. f_equal.
  rewrite E2. f_equal.
  etransitivity; [symmetry; apply (firstn_skipn k2)|]. f_equal.
  exact E3.
Qed.

Lemma span_before_percent (ds : pystr) (lit t : pystr) :
  forallb is_digit ds = true -> hd_error lit = Some 37 ->
  span_unicode_digits (ds ++ lit ++ t) = List.length ds.
Proof.
  intros Hds Hlit. destruct lit as [|c lit]; [discriminate|].
  simpl in Hlit. inversion Hlit; subst c.
  rewrite <- app_comm_cons. apply span_unicode_digits_app; [exact Hds|].
  vm_compute. reflexivity.
Qed.

Lemma try_lengths_whole (ds t : pystr)
    (cont : pystr -> option (list pystr)) (rest : list pystr) :
  ds <> [] -> cont t = Some rest ->
  try_lengths (List.length ds) (ds ++ t) cont = Some (ds :: rest).
Proof.
  intros Hne Hc. destruct ds as [|c ds]; [congruence|].
  change (List.length (c :: ds)) with (S (List.length ds)).
  rewrite try_lengths_longest with (rest := rest).
  - change (S (List.length ds)) with (List.length (c :: ds)).
    now rewrite firstn_app_exact.
  - change (S (List.length ds)) with (List.length (c :: ds)).
    now rewrite skipn_app_exact.
Qed.

(** The pattern matches where its text stands, with the two runs as the
    groups. *)
Lemma match_humidity_here (d1 d2 suf : pystr) :
  digit_run d1 -> digit_run d2 ->
  match_items humidity_pattern (humidity_text [] d1 d2 suf) = Some [d1; d2].
Proof.
  intros [Hn1 Hd1] [Hn2 Hd2].
  unfold humidity_pattern, humidity_text. change ([] ++ ?x) with x.
  cbn [match_items]. rewrite strip_prefix_app.
  rewrite span_before_percent by (auto; reflexivity).
  apply try_lengths_whole; [exact Hn1|].
  rewrite strip_prefix_app.
  rewrite span_before_percent by (auto; reflexivity).
  apply try_lengths_whole; [exact Hn2|].
  now rewrite strip_prefix_app.
Qed.

Lemma re_search_some (p : list rx_item) (t : pystr) (gs : list pystr) :
  re_search p t = Some gs ->
  exists pre t', t = pre ++ t' /\ match_items p t' = Some gs.
Proof.
  induction t as [|c t IH]; simpl.
  - destruct (match_items p []) eqn:E; [|discriminate].
    intros H; inversion H; subst. now exists [], [].
  - destruct (match_items p (c :: t)) eqn:E.
    + intros H; inversion H; subst. now exists [], (c :: t).
    + intros H. destruct (IH H) as (pre & t' & -> & Hm).
      now exists (c :: pre), t'.
Qed.

Lemma re_search_finds (p : list rx_item) (pre t : pystr) (gs : list pystr) :
  match_items p t = Some gs -> re_search p (pre ++ t) <> None.
Proof.
  intros Hm. induction pre as [|c pre IH]; simpl.
  - destruct t; simpl; rewrite Hm; discriminate.
  - destruct (match_items p (c :: pre ++ t)); [discriminate | exact IH].
Qed.

(** [re.search] with the humidity pattern finds the two digit runs of an
    occurrence if there is one, and nothing otherwise. *)
Lemma re_search_humidity (text : pystr) :
  match re_search humidity_pattern text with
  | Some gs => exists pre d1 d2 suf,
      gs = [d1; d2] /\ digit_run d1 /\ digit_run d2
      /\ text = humidity_text pre d1 d2 suf
  | None => ~ has_humidity_match text
  end.
Proof.
  destruct (re_search humidity_pattern text) as [gs|] eqn:E.
  - apply re_search_some in E as (pre & t' & -> & Hm).
    apply match_humidity_inv in Hm as (d1 & d2 & suf & -> & H1 & H2 & ->).
    now exists pre, d1, d2, suf.
  - intros (pre & d1 & d2 & suf & H1 & H2 & ->).
    revert E. change (humidity_text pre d1 d2 suf)
      with (pre ++ humidity_text [] d1 d2 suf).
    eapply re_search_finds. now apply match_humidity_here.
Qed.

(** ** [float] on a run of digits *)

Lemma decimal_in_inv (zs : list N) (c d : N) :
  decimal_in zs c = Some d ->
  exists z, In z zs /\ z <= c < z + 10 /\ d = c - z.
Proof.
  induction zs as [|z zs IH]; simpl; [discriminate|].
  destruct (N.leb_spec z c) as [Hle|Hgt];
    destruct (N.ltb_spec c (z + 10)) as [Hlt|Hge]; simpl; intros Hd;
    try (destruct (IH Hd) as (z' & ? & ? & ?); exists z'; now auto).
  inversion Hd; subst. exists z. repeat split; auto.
Qed.

(** Below 127 the only digits are the ASCII ones. *)
Lemma unicode_decimal_ascii (c d : N) :
  unicode_decimal c = Some d -> c < 127 -> ascii_digit c = true /\ d = c - 48.
Proof.
  intros H Hc. apply decimal_in_inv in H as (z & Hz & Hr & ->).
  assert (Hall : forallb (fun z => (z =? 48) || (1632 <=? z)) nd_zeros = true)
    by (vm_compute; reflexivity).
  rewrite forallb_forall in Hall. specialize (Hall z Hz).
  apply orb_true_iff in Hall as [Hz48 | Hbig].
  - apply N.eqb_eq in Hz48. subst z. split; [|reflexivity].
    unfold ascii_digit. apply andb_true_iff. split.
    + apply N.leb_le. lia.
    + apply N.leb_le. lia.
  - apply N.leb_le in Hbig. lia.
Qed.

Lemma unicode_space_points (c : N) :
  unicode_space c = true -> In c space_points.
Proof.
  unfold unicode_space. rewrite !orb_true_iff, andb_true_iff.
  rewrite !N.eqb_eq, !N.leb_le. unfold space_points. simpl. lia.
Qed.

(** No digit is a space. *)
Lemma unicode_decimal_not_space (c d : N) :
  unicode_decimal c = Some d -> unicode_space c = false.
Proof.
  intros H. destruct (unicode_space c) eqn:E; [|reflexivity].
  apply unicode_space_points in E.
  assert (Hall : forallb (fun s => match unicode_decimal s with
                                   | Some _ => false
                                   | None => true
                                   end) space_points = true)
    by (vm_compute; reflexivity).
  rewrite forallb_forall in Hall. specialize (Hall c E).
  now rewrite H in Hall.
Qed.

Lemma unicode_decimal_lt_10 (c d : N) : unicode_decimal c = Some d -> d < 10.
Proof. intros H. apply decimal_in_inv in H as (z & _ & Hr & ->). lia. Qed.

Lemma ascii_of_digit_ok (c : N) :
  is_digit c = true ->
  ascii_digit (ascii_of_digit c) = true
  /\ (Z.of_N (ascii_of_digit c - 48) =
      match unicode_decimal c with Some d => Z.of_N d | None => 0 end)%Z.
Proof.
  unfold is_digit, ascii_of_digit.
  destruct (unicode_decimal c) as [d|] eqn:E; [|discriminate].
  intros _. pose proof (unicode_decimal_lt_10 _ _ E). split.
  - unfold ascii_digit. apply andb_true_iff. split; apply N.leb_le; lia.
  - f_equal. lia.
Qed.

Lemma ascii_digit_range (c : N) : ascii_digit c = true -> 48 <= c <= 57.
Proof.
  unfold ascii_digit. rewrite andb_true_iff, !N.leb_le. tauto.
Qed.

Lemma transform_digits (ds : pystr) :
  forallb is_digit ds = true ->
  transform_decimal_and_space ds = map ascii_of_digit ds.
Proof.
  induction ds as [|c ds IH]; simpl; [reflexivity|].
  intros H. apply andb_true_iff in H as [Hc Hds].
  rewrite (IH Hds). unfold is_digit in Hc.
  destruct (unicode_decimal c) as [d|] eqn:E; [|discriminate].
  destruct (N.ltb_spec c 127) as [Hlt|Hge].
  - destruct (unicode_decimal_ascii _ _ E Hlt) as [Hasc ->].
    apply ascii_digit_range in Hasc. f_equal.
    unfold ascii_of_digit. rewrite E. lia.
  - rewrite (unicode_decimal_not_space _ _ E). f_equal.
    unfold ascii_of_digit. now rewrite E.
Qed.

Lemma digits_value_decimal_from (ds : pystr) (acc : Z) :
  forallb is_digit ds = true ->
  fold_left (fun acc c => 10 * acc + Z.of_N (c - 48))%Z
    (map ascii_of_digit ds) acc
  = fold_left (fun acc c =>
                 (10 * acc + match unicode_decimal c with
                             | Some d => Z.of_N d
                             | None => 0
                             end)%Z) ds acc.
Proof.
  revert acc. induction ds as [|c ds IH]; intros acc H; [reflexivity|].
  cbn [map fold_left]. cbn [forallb] in H.
  apply andb_true_iff in H as [Hc Hds].
  destruct (ascii_of_digit_ok c Hc) as [_ ->]. now apply IH.
Qed.

Lemma digits_value_decimal (ds : pystr) :
  forallb is_digit ds = true ->
  digits_value (map ascii_of_digit ds) = decimal_value ds.
Proof. apply digits_value_decimal_from. Qed.

Lemma digits_value_nonneg_from (a : pystr) (acc : Z) :
  (0 <= acc)%Z ->
  (0 <= fold_left (fun acc c => 10 * acc + Z.of_N (c - 48)) a acc)%Z.
Proof.
  revert acc. induction a as [|c a IH]; intros acc H; cbn [fold_left];
    [exact H|].
  apply IH. pose proof (N2Z.is_nonneg (c - 48)). lia.
Qed.

Lemma span_digits_all (a : pystr) :
  forallb ascii_digit a = true -> span_digits a = (a, []).
Proof.
  induction a as [|c a IH]; simpl; [reflexivity|].
  intros H. apply andb_true_iff in H as [Hc Ha].
  now rewrite Hc, (IH Ha).
Qed.

Lemma ascii_digit_not_space (c : N) :
  ascii_digit c = true -> ascii_space c = false.
Proof.
  intros H. apply ascii_digit_range in H. unfold ascii_space.
  apply orb_false_iff. split.
  - apply N.eqb_neq. lia.
  - apply andb_false_iff. right. apply N.leb_gt. lia.
Qed.

Lemma existsb_digits_false (x : N) (a : pystr) :
  forallb ascii_digit a = true -> ~ (48 <= x <= 57) ->
  existsb (N.eqb x) a = false.
Proof.
  intros Ha Hx. induction a as [|c a IH]; simpl; [reflexivity|].
  simpl in Ha. apply andb_true_iff in Ha as [Hc Ha].
  apply ascii_digit_range in Hc. rewrite (IH Ha).
  destruct (N.eqb_spec x c); [lia | reflexivity].
Qed.

Lemma rstrip_digits (r : pystr) :
  forallb ascii_digit r = true ->
  fold_right (fun x acc => match acc with
                           | [] => if ascii_space x then [] else [x]
                           | _ => x :: acc
                           end) [] r = r.
Proof.
  induction r as [|c r IH]; simpl; [reflexivity|].
  intros H. apply andb_true_iff in H as [Hc Hr].
  rewrite (IH Hr). rewrite (ascii_digit_not_space _ Hc). now destruct r.
Qed.

(** [float] reads a non-empty run of ASCII digits as its integer. *)
Lemma float_of_ascii_digits (a : pystr) :
  a <> [] -> forallb ascii_digit a = true ->
  (forall s, transform_decimal_and_space s = a ->
             float_of_text s = Some (float64_of_Z (digits_value a))).
Proof.
  intros Hne Ha s Hs. unfold float_of_text. rewrite Hs.
  rewrite (existsb_digits_false 0 a Ha) by lia.
  rewrite (existsb_digits_false 95 a Ha) by lia.
  destruct a as [|c a']; [congruence|].
  pose proof Ha as Ha0. simpl in Ha. apply andb_true_iff in Ha as [Hc Ha'].
  pose proof (ascii_digit_range _ Hc) as Hr.
  cbn [lstrip_space]. rewrite (ascii_digit_not_space _ Hc).
  cbn [rstrip_space_keep1]. rewrite (rstrip_digits a' Ha').
  assert (Hsign : split_sign (c :: a') = (false, c :: a')).
  { unfold split_sign.
    destruct c as [|p]; [lia|].
    do 6 (destruct p as [p|p|]; try reflexivity); lia. }
  rewrite Hsign.
  unfold parse_decimal. rewrite (span_digits_all _ Ha0).
  rewrite app_nil_r. cbn [List.length Z.of_nat Z.opp].
  assert (Hnn : (0 <= digits_value (c :: a'))%Z)
    by (apply digits_value_nonneg_from; lia).
  unfold float64_of_decimal, float64_of_Z.
  destruct (digits_value (c :: a')) as [|p|p]; [reflexivity| |lia].
  cbn [Z.leb Z.compare]. change (10 ^ 0)%Z with 1%Z. now rewrite Z.mul_1_r.
Qed.

(** [float(s)] never fails on what [(\d+)] captures: it is the number the
    digits write, rounded to binary64. *)
Lemma py_float_digit_run (ds : pystr) :
  digit_run ds ->
  py_float (PStr ds) = Ok (float64_of_Z (decimal_value ds)).
Proof.
  intros [Hne Hds]. unfold py_float.
  rewrite (float_of_ascii_digits (map ascii_of_digit ds)).
  - now rewrite digits_value_decimal.
  - destruct ds; [congruence | discriminate].
  - rewrite forallb_forall. intros x Hx.
    apply in_map_iff in Hx as (c & <- & Hc).
    rewrite forallb_forall in Hds. now apply ascii_of_digit_ok, Hds.
  - now apply transform_digits.
Qed.

(** ** The legacy HTML fetcher *)

Lemma sensor_data_pairs (d1 d2 : pystr) :
  dict_of_pairs (combine [str_lit "Sensor A"; str_lit "Sensor B"]
                         (map PStr [d1; d2]))
  = [(str_lit "Sensor A", PStr d1); (str_lit "Sensor B", PStr d2)].
Proof. reflexivity. Qed.

(** The outcome of the [try] block for a response that passes
    [raise_for_status] and decodes. *)
Lemma legacy_measurements_decoded (config : device_config) (r : response)
    (text : pystr) :
  status_ok r -> utf8_decode (content r) = Some text ->
  match re_search humidity_pattern text with
  | Some _ =>
      exists pre d1 d2 suf,
        digit_run d1 /\ digit_run d2 /\ text = humidity_text pre d1 d2 suf
        /\ legacy_measurements config (Ok r) = Ok (legacy_pair config d1 d2)
  | None =>
      ~ has_humidity_match text /\ legacy_measurements config (Ok r) = Ok []
  end.
Proof.
  intros Hst Hdec. pose proof (re_search_humidity text) as Hre.
  unfold legacy_measurements. cbn [bind]. unfold status_ok in Hst.
  rewrite Hst. cbn [bind]. rewrite Hdec. cbn [bind].
  destruct (re_search humidity_pattern text) as [gs|].
  - destruct Hre as (pre & d1 & d2 & suf & -> & H1 & H2 & Htext).
    exists pre, d1, d2, suf. repeat (split; [assumption|]).
    rewrite sensor_data_pairs. cbn [map_res bind].
    rewrite (py_float_digit_run d1 H1), (py_float_digit_run d2 H2).
    reflexivity.
  - now split.
Qed.

Lemma fetch_legacy_unfold (config : device_config) (w : world) :
  fst (fetch_from_legacy_html_device config w) =
  except_request
    (legacy_measurements config
       (match incoming w (served w) with
        | NetError => Raise RequestException
        | Answer r => Ok r
        end)) [].
Proof. reflexivity. Qed.

(** C4 as amended: for a response with a non-error status whose body is
    UTF-8, a body in which the pattern occurs gives exactly the two
    measurements of an occurrence, in the order Sensor A, Sensor B, the
    values being the floats of the two digit runs and the attributes the
    common attributes with that [sensor_id]; a body in which it does not
    occur gives the empty list, and nothing is raised. *)
Theorem C4_legacy_two_measurements (config : device_config) (w : world)
    (r : response) (text : pystr) :
  incoming w (served w) = Answer r ->
  status_ok r ->
  utf8_decode (content r) = Some text ->
  (has_humidity_match text ->
   exists pre d1 d2 suf,
     digit_run d1 /\ digit_run d2 /\ text = humidity_text pre d1 d2 suf
     /\ fst (fetch_from_legacy_html_device config w)
        = Ok (legacy_pair config d1 d2))
  /\ (~ has_humidity_match text ->
      fst (fetch_from_legacy_html_device config w) = Ok []).
Proof.
  intros Hin Hst Hdec. rewrite fetch_legacy_unfold, Hin.
  pose proof (legacy_measurements_decoded config r text Hst Hdec) as H.
  pose proof (re_search_humidity text) as Hre.
  destruct (re_search humidity_pattern text) as [gs|].
  - destruct H as (pre & d1 & d2 & suf & H1 & H2 & Htext & Hm).
    split.
    + intros _. exists pre, d1, d2, suf. rewrite Hm.
      repeat (split; [assumption|]). reflexivity.
    + intros Hno. exfalso. apply Hno. now exists pre, d1, d2, suf.
  - destruct H as [Hno Hm]. split.
    + intros Hyes. now destruct (Hno Hyes).
    + intros _. now rewrite Hm.
Qed.

Lemma page_has_match : has_humidity_match (str_lit LegacySamples.page).
Proof.
  exists (str_lit "<p>"), (str_lit "42"), (str_lit "7"), (str_lit "</p>").
  repeat split; try discriminate; reflexivity.
Qed.

(** The page [<p>Humidity A: 42% Humidity B: 7%</p>] gives 42.0 for
    Sensor A and 7.0 for Sensor B. *)
Lemma C4_legacy_two_measurements_witness :
  has_humidity_match (str_lit LegacySamples.page)
  /\ fst (fetch_from_legacy_html_device Samples.legacy_config
            LegacySamples.page_world)
     = Ok [measurement (float64_of_Z 42)
             (with_sensor_id (common_of Samples.legacy_config)
                (str_lit "Sensor A"));
           measurement (float64_of_Z 7)
             (with_sensor_id (common_of Samples.legacy_config)
                (str_lit "Sensor B"))]
  /\ exists pre d1 d2 suf,
       digit_run d1 /\ digit_run d2
       /\ str_lit LegacySamples.page = humidity_text pre d1 d2 suf
       /\ fst (fetch_from_legacy_html_device Samples.legacy_config
                 LegacySamples.page_world)
          = Ok (legacy_pair Samples.legacy_config d1 d2).
Proof.
  split; [exact page_has_match|].
  split; [vm_compute; reflexivity|].
  exact (proj1 (C4_legacy_two_measurements Samples.legacy_config
                  LegacySamples.page_world
                  {| status_code := 200;
                     content := str_lit LegacySamples.page;
                     json := None |}
                  (str_lit LegacySamples.page)
                  eq_refl eq_refl eq_refl) page_has_match).
Defined.

(** C4 as stated fails: the page served with status 503 contains the
    pattern and gives no measurement, and a body that is not UTF-8, which
    contains no occurrence, makes the fetcher raise. *)
Lemma C4_counterexample :
  (has_humidity_match (str_lit LegacySamples.page)
   /\ fst (fetch_from_legacy_html_device Samples.legacy_config
             LegacySamples.unavailable_world) = Ok [])
  /\ (~ has_humidity_match [255]
      /\ fst (fetch_from_legacy_html_device Samples.legacy_config
                LegacySamples.undecodable_world) = Raise UnicodeDecodeError).
Proof.
  split; split.
  - exact page_has_match.
  - vm_compute. reflexivity.
  - intros (pre & d1 & d2 & suf & _ & _ & H).
    apply (f_equal (@List.length N)) in H. unfold humidity_text in H.
    rewrite !length_app in H. simpl in H. lia.
  - vm_compute. reflexivity.
Qed.



(** ** The polling loop *)












(** ** The smooth-API fetcher *)







(** ** The sensor identifier of a measurement *)

Lemma measurement_attributes_measurement (v : float64) (attrs : pydict) :
  measurement_attributes (measurement v attrs) = Some attrs.
Proof. reflexivity. Qed.

(** With a configured [sensor_id], the probe's identifier takes its place
    and nothing else changes. *)
Lemma with_sensor_id_overrides (common : pydict) (probe : pystr)
    (configured : pyval) :
  dict_get common (str_lit "sensor_id") = Some configured ->
  dict_get (with_sensor_id common probe) (str_lit "sensor_id")
  = Some (PStr probe)
  /\ dict_keys (with_sensor_id common probe) = dict_keys common.
Proof.
  intros H. unfold with_sensor_id. split.
  - apply dict_get_set_same.
  - now apply dict_keys_set_present with (x := configured).
Qed.

(** What the legacy fetcher can return. *)
Lemma legacy_returns (config : device_config) (w : world) (ms : list pyval) :
  fst (fetch_from_legacy_html_device config w) = Ok ms ->
  ms = [] \/ exists d1 d2, ms = legacy_pair config d1 d2.
Proof.
  rewrite fetch_legacy_unfold.
  destruct (incoming w (served w)) as [|r].
  - cbn. intros H; inversion H. now left.
  - destruct (raise_for_status r) as [[]|e] eqn:Hst.
    + destruct (utf8_decode (content r)) as [text|] eqn:Hdec.
      * pose proof (legacy_measurements_decoded config r text Hst Hdec) as H.
        destruct (re_search humidity_pattern text).
        -- destruct H as (pre & d1 & d2 & suf & _ & _ & _ & ->). cbn.
           intros H; inversion H. right. now exists d1, d2.
        -- destruct H as [_ ->]. cbn. intros H; inversion H. now left.
      * unfold legacy_measurements. cbn [bind]. rewrite Hst. cbn [bind].
        rewrite Hdec. cbn. discriminate.
    + unfold legacy_measurements. cbn [bind]. rewrite Hst. cbn [bind].
      unfold raise_for_status in Hst.
      destruct ((400 <=? status_code r) && (status_code r <? 600))%Z;
        inversion Hst; subst. cbn. intros H; inversion H. now left.
Qed.

Lemma smooth_measurement_shape (config : device_config) (label : pystr)
    (result m : pyval) :
  smooth_measurement config label result = Ok (Some m) ->
  exists v, m = measurement v (with_sensor_id (common_of config) label).
Proof.
  unfold smooth_measurement.
  destruct (if truthy result
            then bind (py_get result (str_lit "sensor_label") PNone)
                   (fun echoed => Ok (eq_str echoed label))
            else Ok false) as [[|]|e]; cbn [bind]; try discriminate.
  destruct (py_get result (str_lit "average_humidity_percent") PNone)
    as [value|e]; cbn [bind]; [|discriminate].
  destruct (py_float value) as [v|e]; cbn [bind]; [|discriminate].
  intros H; inversion H. now exists v.
Qed.

(** Every measurement of the loop is one it started with or belongs to
    one of the labels. *)
Lemma smooth_loop_members (fuel : nat) (config : device_config) (base : pystr)
    (labels : list pystr) :
  forall (acc : list pyval) (w w' : world) (ms : list pyval),
    smooth_loop fuel config base labels acc w = Some (Ok ms, w') ->
    forall m, In m ms ->
      In m acc
      \/ exists label v,
           In label labels
           /\ m = measurement v (with_sensor_id (common_of config) label).
Proof.
  induction labels as [|label labels IH]; intros acc w w' ms H m Hm.
  - cbn in H. inversion H; subst. now left.
  - cbn [smooth_loop] in H.
    destruct (ESPSensorReader.request_smooth_reading fuel base label w)
      as [[[result|e] w1]|]; try discriminate.
    destruct (smooth_measurement config label result) as [[m0|]|e] eqn:Hsm;
      try discriminate.
    + destruct (IH _ _ _ _ H m Hm) as [Hacc | (l & v & Hl & ->)].
      * apply in_app_or in Hacc as [Hacc | [<- | []]]; [now left|].
        right. destruct (smooth_measurement_shape _ _ _ _ Hsm) as (v & ->).
        exists label, v. split; [now left | reflexivity].
      * right. exists l, v. split; [now right | reflexivity].
    + destruct (IH _ _ _ _ H m Hm) as [Hacc | (l & v & Hl & ->)];
        [now left|].
      right. exists l, v. split; [now right | reflexivity].
Qed.

Lemma all_strings_in (xs : list pyval) (labels : list pystr) (label : pystr) :
  all_strings xs = Some labels -> In label labels -> In (PStr label) xs.
Proof.
  revert labels. induction xs as [|x xs IH]; intros labels H Hin.
  - cbn in H. inversion H; subst. contradiction.
  - cbn in H. destruct x; try discriminate.
    destruct (all_strings xs) as [ls|]; [|discriminate].
    cbn in H. inversion H; subst. destruct Hin as [<- | Hin].
    + now left.
    + right. now apply (IH ls).
Qed.

(** C9: when the common attributes of a device have a [sensor_id] of
    their own, each measurement of either fetcher carries under that key
    the identifier of its probe (Sensor A or Sensor B, or a discovered
    label), whatever the configured value is, and its attributes have
    the keys of the common attributes and no other. *)
Theorem C9_sensor_id_overrides (config : device_config) (configured : pyval) :
  dict_get (common_of config) (str_lit "sensor_id") = Some configured ->
  (forall w ms m,
      fst (fetch_from_legacy_html_device config w) = Ok ms -> In m ms ->
      exists probe attrs,
        (probe = str_lit "Sensor A" \/ probe = str_lit "Sensor B")
        /\ measurement_attributes m = Some attrs
        /\ dict_get attrs (str_lit "sensor_id") = Some (PStr probe)
        /\ dict_keys attrs = dict_keys (common_of config))
  /\ (forall fuel w found ms w' m,
         fst (ESPSensorReader.get_available_sensors
                (ESPSensorReader.init (url config)) w) = Ok found ->
         fetch_from_smooth_api_device fuel config w = Some (Ok ms, w') ->
         In m ms ->
         exists probe attrs,
           In (PStr probe) found
           /\ measurement_attributes m = Some attrs
           /\ dict_get attrs (str_lit "sensor_id") = Some (PStr probe)
           /\ dict_keys attrs = dict_keys (common_of config)).
Proof.
  intros Hcfg. split.
  - intros w ms m Hms Hm.
    destruct (legacy_returns config w ms Hms) as [-> | (d1 & d2 & ->)];
      [contradiction|].
    destruct Hm as [<- | [<- | []]].
    + exists (str_lit "Sensor A"), (with_sensor_id (common_of config) (str_lit "Sensor A")).
      destruct (with_sensor_id_overrides _ (str_lit "Sensor A") _ Hcfg).
      repeat split; auto.
    + exists (str_lit "Sensor B"), (with_sensor_id (common_of config) (str_lit "Sensor B")).
      destruct (with_sensor_id_overrides _ (str_lit "Sensor B") _ Hcfg).
      repeat split; auto.
  - intros fuel w found ms w' m Hfound Hfetch Hm.
    unfold fetch_from_smooth_api_device in Hfetch.
    destruct (ESPSensorReader.get_available_sensors
                (ESPSensorReader.init (url config)) w) as [r w1].
    cbn [fst] in Hfound. subst r.
    destruct (negb (truthy (PList found))).
    + inversion Hfetch; subst. contradiction.
    + destruct (all_strings found) as [labels|] eqn:Hall; [|discriminate].
      destruct (smooth_loop_members _ _ _ _ _ _ _ _ Hfetch m Hm)
        as [[] | (label & v & Hl & ->)].
      exists label, (with_sensor_id (common_of config) label).
      destruct (with_sensor_id_overrides _ label _ Hcfg).
      repeat split; auto. now apply (all_strings_in found labels).
Qed.

(** A device configured with [sensor_id: configured]: its measurements
    say Sensor A and Sensor B, or the labels of the device. *)
Lemma C9_sensor_id_overrides_witness :
  (forall m,
      In m (legacy_pair Samples.tagged_config (str_lit "42") (str_lit "7")) ->
      exists probe attrs,
        (probe = str_lit "Sensor A" \/ probe = str_lit "Sensor B")
        /\ measurement_attributes m = Some attrs
        /\ dict_get attrs (str_lit "sensor_id") = Some (PStr probe)
        /\ dict_keys attrs = dict_keys (common_of Samples.tagged_config))
  /\ (forall m,
         In m (expected_measurements Samples.tagged_config
                 SmoothSamples.four_reads) ->
         exists probe attrs,
           In (PStr probe)
              (map PStr (map fst SmoothSamples.four_reads))
           /\ measurement_attributes m = Some attrs
           /\ dict_get attrs (str_lit "sensor_id") = Some (PStr probe)
           /\ dict_keys attrs = dict_keys (common_of Samples.tagged_config)).
Proof.
  split; intros m Hm.
  - exact (proj1 (C9_sensor_id_overrides Samples.tagged_config
                    (Samples.text "configured") eq_refl)
             LegacySamples.page_world _ m eq_refl Hm).
  - eapply (proj2 (C9_sensor_id_overrides Samples.tagged_config
                     (Samples.text "configured") eq_refl)
              3%nat (Samples.world_of SmoothSamples.four_sensors) _ _ _ m);
      [reflexivity | reflexivity | exact Hm].
Defined.

(** ** Collecting and sending *)

Lemma format_empty (metric_name unit_ : pystr) (timestamp : Z) :
  _format_for_otel metric_name unit_ timestamp [] = Ok PNone.
Proof. reflexivity. Qed.

Lemma format_absent_iff_empty (metric_name unit_ : pystr) (timestamp : Z)
    (ms : list pyval) :
  _format_for_otel metric_name unit_ timestamp ms = Ok PNone <-> ms = [].
Proof.
  split; [|intros ->; reflexivity].
  unfold _format_for_otel.
  destruct (map_res (otel_data_point timestamp) ms) as [points|e] eqn:E;
    cbn [bind]; [|discriminate].
  apply map_res_length in E.
  destruct points as [|p points].
  - intros _. now destruct ms.
  - cbn. discriminate.
Qed.

(** The URL a task is started at is never the collector's. *)
Lemma smooth_read_url_not_collector (base : pystr) :
  str_eqb (ESPSensorReader.smooth_read_url base) OTEL_SERVER_URL = false.
Proof.
  apply str_eqb_neq. unfold ESPSensorReader.smooth_read_url. intros H.
  apply (f_equal (@rev N)) in H. rewrite rev_app_distr in H.
  vm_compute in H. discriminate.
Qed.

Lemma collector_posts_get (t : list event) (u : pystr) :
  collector_posts (t ++ [EvGet u]) = collector_posts t.
Proof. unfold collector_posts. rewrite filter_app. cbn. apply app_nil_r. Qed.

Lemma collector_posts_sleep (t : list event) (s : Z) :
  collector_posts (t ++ [EvSleep s]) = collector_posts t.
Proof. unfold collector_posts. rewrite filter_app. cbn. apply app_nil_r. Qed.

Lemma collector_posts_trigger (t : list event) (base : pystr) (body : pyval) :
  collector_posts (t ++ [EvPost (ESPSensorReader.smooth_read_url base) body])
  = collector_posts t.
Proof.
  unfold collector_posts. rewrite filter_app. cbn [filter collector_post].
  rewrite smooth_read_url_not_collector. apply app_nil_r.
Qed.

Lemma poll_loop_quiet (fuel : nat) (base : pystr) :
  forall (w w' : world) (out : res pyval),
    ESPSensorReader.poll_loop fuel base w = Some (out, w') ->
    collector_posts (trace w') = collector_posts (trace w).
Proof.
  induction fuel as [|fuel IH]; intros w w' out H; [discriminate|].
  cbn [ESPSensorReader.poll_loop] in H.
  unfold requests_get, exchange, time_sleep in H. cbn [incoming served trace] in H.
  match type of H with
  | context [ESPSensorReader.poll_result ?r] =>
      destruct (ESPSensorReader.poll_result r) as [[last|]|e]
  end.
  - inversion H; subst. cbn [trace].
    now rewrite collector_posts_get, collector_posts_sleep.
  - apply IH in H. rewrite H. cbn [trace].
    now rewrite collector_posts_get, collector_posts_sleep.
  - inversion H; subst. cbn [trace].
    now rewrite collector_posts_get, collector_posts_sleep.
Qed.

Lemma request_smooth_reading_quiet (fuel : nat) (base label : pystr)
    (w w' : world) (out : res pyval) :
  ESPSensorReader.request_smooth_reading fuel base label w = Some (out, w') ->
  collector_posts (trace w') = collector_posts (trace w).
Proof.
  unfold ESPSensorReader.request_smooth_reading, requests_post, exchange.
  destruct (incoming w (served w)) as [|r].
  - intros H; inversion H; subst. cbn [trace]. apply collector_posts_trigger.
  - destruct (negb (status_code r =? 202)%Z).
    + intros H; inversion H; subst. cbn [trace]. apply collector_posts_trigger.
    + match goal with
      | |- context [ESPSensorReader.poll_loop fuel base ?w0] =>
          destruct (ESPSensorReader.poll_loop fuel base w0)
            as [[o w2]|] eqn:E
      end; [|discriminate].
      intros H; inversion H; subst. apply poll_loop_quiet in E.
      rewrite E. cbn [trace]. apply collector_posts_trigger.
Qed.

Lemma smooth_loop_quiet (fuel : nat) (config : device_config) (base : pystr)
    (labels : list pystr) :
  forall (acc : list pyval) (w w' : world) (out : res (list pyval)),
    smooth_loop fuel config base labels acc w = Some (out, w') ->
    collector_posts (trace w') = collector_posts (trace w).
Proof.
  induction labels as [|label labels IH]; intros acc w w' out H.
  - cbn in H. now inversion H.
  - cbn [smooth_loop] in H.
    destruct (ESPSensorReader.request_smooth_reading fuel base label w)
      as [[[result|e] w1]|] eqn:E; try discriminate;
      apply request_smooth_reading_quiet in E.
    + destruct (smooth_measurement config label result) as [[m0|]|e].
      * apply IH in H. congruence.
      * apply IH in H. congruence.
      * inversion H; subst. exact E.
    + inversion H; subst. exact E.
Qed.

Lemma fetch_smooth_quiet (fuel : nat) (config : device_config)
    (w w' : world) (out : res (list pyval)) :
  fetch_from_smooth_api_device fuel config w = Some (out, w') ->
  collector_posts (trace w') = collector_posts (trace w).
Proof.
  unfold fetch_from_smooth_api_device, ESPSensorReader.get_available_sensors,
    requests_get, exchange.
  match goal with
  | |- context [bind ?a ?k] => destruct (bind a k) as [found|e]
  end.
  - destruct (negb (truthy (PList found))).
    + intros H; inversion H; subst. cbn [trace]. apply collector_posts_get.
    + destruct (all_strings found) as [labels|].
      * intros H. apply smooth_loop_quiet in H. rewrite H. cbn [trace].
        apply collector_posts_get.
      * intros H; inversion H; subst. cbn [trace]. apply collector_posts_get.
  - intros H; inversion H; subst. cbn [trace]. apply collector_posts_get.
Qed.

Lemma fetch_legacy_quiet (config : device_config) (w : world) :
  collector_posts (trace (snd (fetch_from_legacy_html_device config w)))
  = collector_posts (trace w).
Proof. cbn. apply collector_posts_get. Qed.

Lemma collect_quiet (fuel : nat) (devices : list device_config) :
  forall (acc : list pyval) (w w' : world) (out : res (list pyval)),
    collect fuel devices acc w = Some (out, w') ->
    collector_posts (trace w') = collector_posts (trace w).
Proof.
  induction devices as [|d devices IH]; intros acc w w' out H.
  - cbn in H. now inversion H.
  - cbn [collect] in H.
    destruct (FETCHER_MAP_get (dev_type d)) as [[|]|].
    + cbn [run_fetcher] in H. pose proof (fetch_legacy_quiet d w) as Hq.
      destruct (fetch_from_legacy_html_device d w) as [[ms|e] w1].
      * apply IH in H. cbn [snd] in Hq. congruence.
      * inversion H; subst. exact Hq.
    + cbn [run_fetcher] in H.
      destruct (fetch_from_smooth_api_device fuel d w) as [[[ms|e] w1]|] eqn:E;
        try discriminate; apply fetch_smooth_quiet in E.
      * apply IH in H. congruence.
      * inversion H; subst. exact E.
    + now apply IH in H.
Qed.

(** C6: the formatter returns the absent envelope exactly when it is
    given no measurement; and when the devices yield no measurement the
    cycle ends normally where the collection ended, no POST to the
    collector having been made. *)
Theorem C6_absent_iff_empty_and_no_post :
  (forall metric_name unit_ timestamp ms,
      _format_for_otel metric_name unit_ timestamp ms = Ok PNone <-> ms = [])
  /\ (forall fuel devices timestamp w w1,
         collect fuel devices [] w = Some (Ok [], w1) ->
         collect_and_send_metrics fuel devices timestamp w = Some (Ok tt, w1)
         /\ collector_posts (trace w1) = collector_posts (trace w)).
Proof.
  split.
  - apply format_absent_iff_empty.
  - intros fuel devices timestamp w w1 H. split.
    + unfold collect_and_send_metrics. now rewrite H.
    + now apply collect_quiet in H.
Qed.

(** With both configured devices unreachable nothing is collected and
    nothing is posted. *)
Lemma C6_absent_iff_empty_and_no_post_witness :
  exists w1,
    collect_and_send_metrics 1 DEVICES 0 CycleSamples.unreachable_world
    = Some (Ok tt, w1)
    /\ collector_posts (trace w1) = [].
Proof.
  eexists.
  eapply (proj2 C6_absent_iff_empty_and_no_post 1%nat DEVICES 0%Z
            CycleSamples.unreachable_world).
  reflexivity.
Defined.

(** ** Formatting and reading back *)

Lemma dict_get_absent (d : pydict) (k : pystr) :
  ~ In k (dict_keys d) -> dict_get d k = None.
Proof.
  induction d as [|[k' v] d IH]; cbn; [reflexivity|].
  intros H. destruct (str_eqb k' k) eqn:E.
  - apply str_eqb_eq in E. subst. exfalso. apply H. now left.
  - apply IH. intros Hin. apply H. now right.
Qed.

Lemma dict_of_pairs_from (ps acc : pydict) :
  NoDup (dict_keys (acc ++ ps)) ->
  fold_left (fun d kv => dict_set d (fst kv) (snd kv)) ps acc = acc ++ ps.
Proof.
  revert acc. induction ps as [|[k v] ps IH]; intros acc H; cbn [fold_left].
  - now rewrite app_nil_r.
  - cbn [fst snd]. rewrite dict_set_absent.
    + rewrite IH; rewrite <- app_assoc; [reflexivity | exact H].
    + apply dict_get_absent. unfold dict_keys in *. rewrite map_app in H.
      apply NoDup_remove_2 in H. intros Hin. apply H.
      apply in_or_app. now left.
Qed.

(** Building a dict from the items of a dict gives it back. *)
Lemma dict_of_pairs_wf (d : pydict) : dict_wf d -> dict_of_pairs d = d.
Proof. intros H. unfold dict_of_pairs. now rewrite dict_of_pairs_from. Qed.

Lemma otel_attributes_kept (attrs : pydict) :
  Forall (fun kv => kept_value (snd kv)) attrs ->
  exists entries,
    otel_attributes attrs = Ok entries
    /\ parse_all parse_attribute entries = Some attrs.
Proof.
  induction 1 as [|[k v] attrs Hv _ (entries & Hfmt & Hparse)].
  - now exists [].
  - cbn [snd] in Hv. destruct v; try contradiction.
    + exists (otel_entry k "doubleValue" (PFloat f) :: entries).
      cbn [otel_attributes]. rewrite Hfmt. split; [reflexivity|].
      cbn [parse_all]. now rewrite Hparse.
    + exists (otel_entry k "stringValue" (PStr s) :: entries).
      cbn [otel_attributes]. rewrite Hfmt. split; [reflexivity|].
      cbn [parse_all]. now rewrite Hparse.
Qed.

Lemma otel_data_point_plain (timestamp : Z) (m : pyval) :
  plain_measurement m ->
  exists p, otel_data_point timestamp m = Ok p /\ parse_point p = Some m.
Proof.
  intros (v & attrs & -> & Hwf & Hkept).
  destruct (otel_attributes_kept attrs Hkept) as (entries & Hfmt & Hparse).
  eexists. split.
  - unfold otel_data_point, measurement.
    change (py_get (PDict [(str_lit "value", PFloat v);
                           (str_lit "attributes", PDict attrs)])
              (str_lit "attributes") (PDict []))
      with (Ok (PDict attrs)).
    cbn [bind py_items]. rewrite Hfmt. cbn [bind].
    change (py_get (PDict [(str_lit "value", PFloat v);
                           (str_lit "attributes", PDict attrs)])
              (str_lit "value") PNone)
      with (Ok (PFloat v)).
    cbn [bind py_float]. reflexivity.
  - change (parse_point ?p) with
      (obind (parse_all parse_attribute entries)
         (fun pairs => Some (measurement v (dict_of_pairs pairs)))).
    rewrite Hparse. cbn [obind]. now rewrite dict_of_pairs_wf.
Qed.

Lemma otel_data_points_plain (timestamp : Z) (ms : list pyval) :
  Forall plain_measurement ms ->
  exists ps, map_res (otel_data_point timestamp) ms = Ok ps
             /\ parse_all parse_point ps = Some ms.
Proof.
  induction 1 as [|m ms Hm _ (ps & Hfmt & Hparse)].
  - now exists [].
  - destruct (otel_data_point_plain timestamp m Hm) as (p & Hp & Hpp).
    exists (p :: ps). cbn [map_res parse_all]. rewrite Hp, Hfmt, Hpp, Hparse.
    now split.
Qed.

Lemma parse_envelope_points (metric_name unit_ : pystr) (ps : list pyval) :
  parse_envelope (otel_envelope metric_name unit_ ps)
  = parse_all parse_point ps.
Proof. reflexivity. Qed.

(** C7 as amended: for measurements with float values whose attributes
    are strings or floats, reading back the envelope the formatter makes
    gives the measurements again, all in their order. *)
Theorem C7_format_then_parse (metric_name unit_ : pystr) (timestamp : Z)
    (ms : list pyval) :
  Forall plain_measurement ms ->
  exists envelope,
    _format_for_otel metric_name unit_ timestamp ms = Ok envelope
    /\ parse_envelope envelope = Some ms.
Proof.
  intros H. destruct (otel_data_points_plain timestamp ms H)
    as (ps & Hfmt & Hparse).
  unfold _format_for_otel. rewrite Hfmt. cbn [bind].
  destruct ps as [|p ps].
  - exists PNone. split; [reflexivity|]. cbn in Hparse. now rewrite <- Hparse.
  - eexists. split; [reflexivity|]. now rewrite parse_envelope_points.
Qed.

Lemma d1_s1_plain : plain_measurement RoundTripSamples.d1_s1.
Proof.
  eexists; eexists. split; [reflexivity|]. split.
  - repeat constructor; cbn; intuition discriminate.
  - repeat constructor.
Qed.

(** The measurement [{value: 55.5, attributes: {device_id: d1,
    sensor_id: s1}}] comes back from its envelope. *)
Lemma C7_format_then_parse_witness :
  exists envelope,
    _format_for_otel (str_lit "soil_moisture_percentage") (str_lit "%") 17
      [RoundTripSamples.d1_s1] = Ok envelope
    /\ parse_envelope envelope = Some [RoundTripSamples.d1_s1].
Proof.
  apply (C7_format_then_parse (str_lit "soil_moisture_percentage")
           (str_lit "%") 17 [RoundTripSamples.d1_s1]).
  constructor; [exact d1_s1_plain | constructor].
Defined.

(** C7 as stated fails: the integer attribute 2^53 + 1 is sent as the
    double 2^53, and reading the envelope back gives that double. *)
Lemma C7_counterexample :
  exists envelope,
    _format_for_otel (str_lit "soil_moisture_percentage") (str_lit "%") 17
      [RoundTripSamples.counted] = Ok envelope
    /\ parse_envelope envelope
       = Some [measurement (float64_of_Z 55)
                 [(str_lit "sensor_id", Samples.text "top");
                  (str_lit "samples", PFloat (float64_of_Z 9007199254740992))]]
    /\ parse_envelope envelope <> Some [RoundTripSamples.counted].
Proof.
  eexists. split; [reflexivity|]. split.
  - vm_compute. reflexivity.
  - vm_compute. discriminate.
Qed.

(** * Further properties *)

(** ** The reader's base URL *)

Lemma rstrip_slash_slashes (n : nat) : rstrip_slash (slashes n) = [].
Proof.
  induction n as [|n IH]; [reflexivity|].
  unfold rstrip_slash, slashes in *. cbn [repeat fold_right]. now rewrite IH.
Qed.

Lemma rstrip_slash_app_slashes (s : pystr) (n : nat) :
  rstrip_slash (s ++ slashes n) = rstrip_slash s.
Proof.
  pose proof (rstrip_slash_slashes n) as H.
  unfold rstrip_slash in *. now rewrite fold_right_app, H.
Qed.

Lemma rstrip_slash_cons (c : N) (s : pystr) :
  rstrip_slash (c :: s) =
  match rstrip_slash s with
  | [] => if c =? 47 then [] else [c]
  | _ :: _ => c :: rstrip_slash s
  end.
Proof. reflexivity. Qed.

Lemma rstrip_slash_decompose (s : pystr) :
  exists k, s = rstrip_slash s ++ slashes k.
Proof.
  induction s as [|c s (k & IH)]; [now exists O|].
  rewrite rstrip_slash_cons. destruct (rstrip_slash s) as [|a acc] eqn:E.
  - destruct (N.eqb_spec c 47) as [->|Hc].
    + exists (S k). cbn in IH. now rewrite IH at 1.
    + exists k. cbn in *. now rewrite IH at 1.
  - exists k. cbn in *. now rewrite IH at 1.
Qed.

Lemma rstrip_slash_last (s : pystr) : last (rstrip_slash s) 0 <> 47.
Proof.
  induction s as [|c s IH]; [cbn; lia|].
  rewrite rstrip_slash_cons. destruct (rstrip_slash s) as [|a acc] eqn:E.
  - destruct (N.eqb_spec c 47); cbn; lia.
  - exact IH.
Qed.

(** X1: the reader drops every trailing slash of the configured URL and
    nothing else: the URL is its base followed by slashes only, the base
    does not end in a slash, and adding slashes to the URL changes
    neither the base nor the two addresses the reader uses. *)
Theorem reader_base_without_trailing_slashes (base_url : pystr) (n : nat) :
  (exists k, base_url = ESPSensorReader.init base_url ++ slashes k)
  /\ last (ESPSensorReader.init base_url) 0 <> 47
  /\ ESPSensorReader.init (base_url ++ slashes n)
     = ESPSensorReader.init base_url
  /\ ESPSensorReader.api_url (ESPSensorReader.init (base_url ++ slashes n))
     = ESPSensorReader.api_url (ESPSensorReader.init base_url)
  /\ ESPSensorReader.smooth_read_url
       (ESPSensorReader.init (base_url ++ slashes n))
     = ESPSensorReader.smooth_read_url (ESPSensorReader.init base_url).
Proof.
  unfold ESPSensorReader.init. rewrite rstrip_slash_app_slashes.
  repeat split.
  - apply rstrip_slash_decompose.
  - apply rstrip_slash_last.
Qed.

(** ** Discovering the sensors *)







(** ** Triggering and polling *)














(** ** The smooth-API fetcher at its edges *)

Lemma get_available_sensors_world (base : pystr) (w : world) :
  snd (ESPSensorReader.get_available_sensors base w)
  = after_get (ESPSensorReader.api_url base) w.
Proof. reflexivity. Qed.

(** X8: when the discovery gives no sensor, for whatever reason, the
    fetcher returns no measurement after that one GET: it starts no task
    and waits for none. *)
Theorem fetch_smooth_without_sensors (fuel : nat) (config : device_config)
    (w : world) :
  fst (ESPSensorReader.get_available_sensors
         (ESPSensorReader.init (url config)) w) = Ok [] ->
  fetch_from_smooth_api_device fuel config w
  = Some (Ok [],
          after_get (ESPSensorReader.api_url
                       (ESPSensorReader.init (url config))) w).
Proof.
  intros H. unfold fetch_from_smooth_api_device.
  pose proof (get_available_sensors_world
                (ESPSensorReader.init (url config)) w) as Hw.
  destruct (ESPSensorReader.get_available_sensors
              (ESPSensorReader.init (url config)) w) as [found w1].
  cbn [fst snd] in *. subst. reflexivity.
Qed.

Lemma fetch_smooth_without_sensors_witness :
  fetch_from_smooth_api_device 0 Samples.smooth_config
    CycleSamples.unreachable_world
  = Some (Ok [],
          after_get (str_lit "http://esp32-newname.local/api")
            CycleSamples.unreachable_world).
Proof.
  apply (fetch_smooth_without_sensors 0 Samples.smooth_config
           CycleSamples.unreachable_world).
  reflexivity.
Defined.

Lemma all_strings_none (xs : list pyval) :
  (exists x, In x xs /\ is_str x = false) -> all_strings xs = None.
Proof.
  intros (x & Hin & Hx). induction xs as [|y xs IH]; [contradiction|].
  destruct Hin as [-> | Hin].
  - destruct x; try reflexivity. discriminate.
  - cbn. destruct y; try reflexivity. now rewrite (IH Hin).
Qed.

(** X9: when a discovered label is not a string, joining the labels for
    the progress message raises [TypeError]: the fetcher raises after
    the one GET, before any task is started. *)
Theorem fetch_smooth_non_string_label (fuel : nat) (config : device_config)
    (w : world) (found : list pyval) :
  fst (ESPSensorReader.get_available_sensors
         (ESPSensorReader.init (url config)) w) = Ok found ->
  (exists x, In x found /\ is_str x = false) ->
  fetch_from_smooth_api_device fuel config w
  = Some (Raise TypeError,
          after_get (ESPSensorReader.api_url
                       (ESPSensorReader.init (url config))) w).
Proof.
  intros H Hbad. unfold fetch_from_smooth_api_device.
  pose proof (get_available_sensors_world
                (ESPSensorReader.init (url config)) w) as Hw.
  destruct (ESPSensorReader.get_available_sensors
              (ESPSensorReader.init (url config)) w) as [r w1].
  cbn [fst snd] in *. subst.
  rewrite (all_strings_none found Hbad).
  destruct Hbad as (x & Hin & _). destruct found; [contradiction|].
  reflexivity.
Qed.

Lemma fetch_smooth_non_string_label_witness :
  fetch_from_smooth_api_device 3 Samples.smooth_config
    ExtraSamples.numbered_world
  = Some (Raise TypeError,
          after_get (str_lit "http://esp32-newname.local/api")
            ExtraSamples.numbered_world).
Proof.
  apply (fetch_smooth_non_string_label 3 Samples.smooth_config
           ExtraSamples.numbered_world
           [Samples.text "top"; PInt 2] eq_refl).
  exists (PInt 2). split; [right; left; reflexivity | reflexivity].
Defined.

Lemma smooth_loop_length (fuel : nat) (config : device_config) (base : pystr)
    (labels : list pystr) :
  forall (acc : list pyval) (w w' : world) (ms : list pyval),
    smooth_loop fuel config base labels acc w = Some (Ok ms, w') ->
    (List.length acc <= List.length ms
                     <= List.length acc + List.length labels)%nat.
Proof.
  induction labels as [|label labels IH]; intros acc w w' ms H.
  - cbn in H. inversion H; subst. cbn. lia.
  - cbn [smooth_loop] in H.
    destruct (ESPSensorReader.request_smooth_reading fuel base label w)
      as [[[result|e] w1]|]; try discriminate.
    destruct (smooth_measurement config label result) as [[m0|]|e];
      try discriminate; apply IH in H; cbn [List.length];
      try rewrite length_app in H; cbn in H; lia.
Qed.

Lemma all_strings_length (xs : list pyval) (labels : list pystr) :
  all_strings xs = Some labels -> List.length labels = List.length xs.
Proof.
  revert labels. induction xs as [|x xs IH]; intros labels H.
  - cbn in H. now inversion H.
  - cbn in H. destruct x; try discriminate.
    destruct (all_strings xs) as [ls|]; [|discriminate].
    cbn in H. inversion H; subst. cbn. f_equal. now apply IH.
Qed.

(** X10: the fetcher never returns more measurements than the discovery
    gave sensors: each sensor contributes one measurement or none. *)
Theorem fetch_smooth_at_most_one_each (fuel : nat) (config : device_config)
    (w w' : world) (found ms : list pyval) :
  fst (ESPSensorReader.get_available_sensors
         (ESPSensorReader.init (url config)) w) = Ok found ->
  fetch_from_smooth_api_device fuel config w = Some (Ok ms, w') ->
  (List.length ms <= List.length found)%nat.
Proof.
  intros Hfound H. unfold fetch_from_smooth_api_device in H.
  destruct (ESPSensorReader.get_available_sensors
              (ESPSensorReader.init (url config)) w) as [r w1].
  cbn [fst] in Hfound. subst r.
  destruct (negb (truthy (PList found))).
  - inversion H; subst. cbn. lia.
  - destruct (all_strings found) as [labels|] eqn:Hall; [|discriminate].
    apply smooth_loop_length in H. apply all_strings_length in Hall.
    cbn in H. lia.
Qed.

Lemma fetch_smooth_at_most_one_each_witness :
  (List.length (expected_measurements Samples.smooth_config
                  SmoothSamples.four_reads)
   <= List.length (map PStr (map fst SmoothSamples.four_reads)))%nat.
Proof.
  eapply (fetch_smooth_at_most_one_each 3 Samples.smooth_config
            (Samples.world_of SmoothSamples.four_sensors));
    reflexivity.
Defined.

(** ** The formatter at its edges *)

Lemma map_res_forall {A B} (f : A -> res B) (P : B -> Prop) (xs : list A)
    (ys : list B) :
  (forall x y, f x = Ok y -> P y) -> map_res f xs = Ok ys -> Forall P ys.
Proof.
  intros Hf. revert ys. induction xs as [|x xs IH]; intros ys H.
  - cbn in H. inversion H. constructor.
  - cbn in H. destruct (f x) as [y|] eqn:E; [|discriminate].
    destruct (map_res f xs) as [ys'|]; [|discriminate].
    inversion H; subst. constructor; [now apply (Hf x) | now apply IH].
Qed.

Lemma otel_data_point_shape (timestamp : Z) (m p : pyval) :
  otel_data_point timestamp m = Ok p ->
  exists v entries, p = data_point timestamp v entries.
Proof.
  unfold otel_data_point.
  destruct (py_get m (str_lit "attributes") (PDict [])) as [a|];
    cbn [bind]; [|discriminate].
  destruct (py_items a) as [items|]; cbn [bind]; [|discriminate].
  destruct (otel_attributes items) as [entries|]; cbn [bind]; [|discriminate].
  destruct (py_get m (str_lit "value") PNone) as [x|]; cbn [bind];
    [|discriminate].
  destruct (py_float x) as [v|]; cbn [bind]; [|discriminate].
  intros H; inversion H. now exists v, entries.
Qed.

(** X11: an envelope that the formatter returns for a non-empty list
    holds one data point per measurement, and every data point carries
    the one time stamp of the call both as start time and as time. *)
Theorem format_one_point_each_same_stamp (metric_name unit_ : pystr)
    (timestamp : Z) (ms : list pyval) (envelope : pyval) :
  ms <> [] ->
  _format_for_otel metric_name unit_ timestamp ms = Ok envelope ->
  exists points,
    envelope = otel_envelope metric_name unit_ points
    /\ List.length points = List.length ms
    /\ Forall (stamped timestamp) points.
Proof.
  intros Hne. unfold _format_for_otel.
  destruct (map_res (otel_data_point timestamp) ms) as [points|] eqn:E;
    cbn [bind]; [|discriminate].
  pose proof (map_res_length _ _ _ E) as Hlen.
  destruct points as [|p points].
  - destruct ms; [congruence | discriminate].
  - cbn [truthy negb]. intros H; inversion H. exists (p :: points).
    split; [reflexivity|]. split; [exact Hlen|].
    apply (map_res_forall (otel_data_point timestamp) (stamped timestamp)
             ms (p :: points)); [|exact E].
    intros m q Hq.
    apply otel_data_point_shape in Hq as (v & entries & ->). now split.
Qed.

Lemma format_one_point_each_same_stamp_witness :
  exists points,
    otel_envelope (str_lit "soil_moisture_percentage") (str_lit "%")
      [data_point 17 (float64_of_decimal false 555 (-1))
         [otel_entry (str_lit "device_id") "stringValue" (Samples.text "d1");
          otel_entry (str_lit "sensor_id") "stringValue" (Samples.text "s1")]]
    = otel_envelope (str_lit "soil_moisture_percentage") (str_lit "%") points
    /\ List.length points = 1%nat
    /\ Forall (stamped 17) points.
Proof.
  apply (format_one_point_each_same_stamp
           (str_lit "soil_moisture_percentage") (str_lit "%") 17
           [RoundTripSamples.d1_s1]).
  - discriminate.
  - reflexivity.
Defined.

Lemma otel_attribute_unsupported (key : pystr) (v : pyval) :
  supported_value v = false -> otel_attribute (key, v) = Ok None.
Proof. destruct v; cbn; try discriminate; reflexivity. Qed.

Lemma otel_attribute_supported (key : pystr) (v : pyval) (e : option pyval) :
  supported_value v = true -> otel_attribute (key, v) = Ok e ->
  exists x, e = Some x /\ field "key" x = Some (PStr key).
Proof.
  unfold otel_attribute. destruct v; cbn; try discriminate; intros _.
  - intros H; inversion H. eexists. split; reflexivity.
  - destruct (float64_of_Z z); cbn; try discriminate;
      intros H; inversion H; eexists; split; reflexivity.
  - intros H; inversion H. eexists. split; reflexivity.
  - intros H; inversion H. eexists. split; reflexivity.
Qed.

Lemma bind_ok_id {A} (r : res A) : bind r (fun x => Ok x) = r.
Proof. now destruct r. Qed.

Lemma otel_attributes_supported_only (attrs : pydict) :
  otel_attributes attrs = otel_attributes (supported_attributes attrs).
Proof.
  induction attrs as [|[k v] attrs IH]; [reflexivity|].
  unfold supported_attributes in *. cbn [filter snd].
  destruct (supported_value v) eqn:E.
  - cbn [otel_attributes]. now rewrite IH.
  - cbn [otel_attributes]. rewrite (otel_attribute_unsupported k v E).
    cbn [bind]. rewrite IH. apply bind_ok_id.
Qed.

Lemma otel_attributes_keys (attrs : pydict) (entries : list pyval) :
  otel_attributes attrs = Ok entries ->
  map (field "key") entries
  = map (fun kv => Some (PStr (fst kv))) (supported_attributes attrs).
Proof.
  revert entries. induction attrs as [|[k v] attrs IH]; intros entries H.
  - cbn in H. inversion H. reflexivity.
  - cbn [otel_attributes] in H.
    destruct (otel_attribute (k, v)) as [e|] eqn:He; cbn [bind] in H;
      [|discriminate].
    destruct (otel_attributes attrs) as [es|]; cbn [bind] in H;
      [|discriminate].
    inversion H; subst. unfold supported_attributes in *. cbn [filter snd].
    destruct (supported_value v) eqn:E.
    + destruct (otel_attribute_supported k v e E He) as (x & -> & Hx).
      cbn [map fst]. now rewrite Hx, (IH es).
    + rewrite (otel_attribute_unsupported k v E) in He. inversion He; subst.
      now apply IH.
Qed.

(** X12: attributes whose value is neither a string nor a number (null,
    lists, objects) leave no trace in the data point: the formatter does
    with a measurement what it does without them, and the entries it
    makes are, key for key and in order, those of the remaining
    attributes. *)
Theorem format_drops_unsupported_attributes (timestamp : Z) (v : float64)
    (attrs : pydict) :
  otel_data_point timestamp (measurement v attrs)
  = otel_data_point timestamp (measurement v (supported_attributes attrs))
  /\ forall entries,
       otel_data_point timestamp (measurement v attrs)
       = Ok (data_point timestamp v entries) ->
       map (field "key") entries
       = map (fun kv => Some (PStr (fst kv))) (supported_attributes attrs).
Proof.
  assert (Hpoint : forall a,
             otel_data_point timestamp (measurement v a)
             = bind (otel_attributes a)
                 (fun entries => Ok (data_point timestamp v entries))).
  { intros a. reflexivity. }
  split.
  - now rewrite !Hpoint, <- otel_attributes_supported_only.
  - intros entries. rewrite Hpoint.
    destruct (otel_attributes attrs) as [es|] eqn:E; cbn [bind];
      [|discriminate].
    intros H. inversion H; subst. now apply otel_attributes_keys.
Qed.

Lemma format_drops_unsupported_attributes_witness :
  otel_data_point 17 (measurement (float64_of_Z 55)
                        ExtraSamples.mixed_attributes)
  = Ok (data_point 17 (float64_of_Z 55)
          [otel_entry (str_lit "sensor_id") "stringValue" (Samples.text "top");
           otel_entry (str_lit "depth") "doubleValue" (PFloat (float64_of_Z 12));
           otel_entry (str_lit "indoor") "doubleValue" (PFloat (float64_of_Z 1))])
  /\ map (field "key")
       [otel_entry (str_lit "sensor_id") "stringValue" (Samples.text "top");
        otel_entry (str_lit "depth") "doubleValue" (PFloat (float64_of_Z 12));
        otel_entry (str_lit "indoor") "doubleValue" (PFloat (float64_of_Z 1))]
     = map (fun kv => Some (PStr (fst kv)))
         (supported_attributes ExtraSamples.mixed_attributes).
Proof.
  split; [reflexivity|].
  apply (proj2 (format_drops_unsupported_attributes 17 (float64_of_Z 55)
                  ExtraSamples.mixed_attributes)).
  reflexivity.
Defined.

(** X13: a measurement without the [attributes] key is formatted as one
    with no attribute; a measurement with neither key makes the formatter
    raise [TypeError] when the measurements before it format without
    error, whatever follows it. *)
Theorem format_missing_keys (metric_name unit_ : pystr) (timestamp : Z)
    (fields : pydict) :
  dict_get fields (str_lit "attributes") = None ->
  (forall x v,
      dict_get fields (str_lit "value") = Some x -> py_float x = Ok v ->
      _format_for_otel metric_name unit_ timestamp [PDict fields]
      = Ok (otel_envelope metric_name unit_ [data_point timestamp v []]))
  /\ (dict_get fields (str_lit "value") = None ->
      forall before after points,
        map_res (otel_data_point timestamp) before = Ok points ->
        _format_for_otel metric_name unit_ timestamp
          (before ++ PDict fields :: after)
        = Raise TypeError).
Proof.
  intros Hattr.
  assert (Hpoint : otel_data_point timestamp (PDict fields)
                   = bind (py_float (match dict_get fields (str_lit "value") with
                                     | Some x => x
                                     | None => PNone
                                     end))
                       (fun v => Ok (data_point timestamp v []))).
  { unfold otel_data_point. cbn [py_get bind]. rewrite Hattr. reflexivity. }
  split.
  - intros x v Hx Hv. unfold _format_for_otel. cbn [map_res].
    rewrite Hpoint, Hx, Hv. reflexivity.
  - intros Hval before after points Hbefore. unfold _format_for_otel.
    assert (Hraise : map_res (otel_data_point timestamp)
                       (before ++ PDict fields :: after) = Raise TypeError).
    { clear Hattr. revert points Hbefore.
      induction before as [|m before IH]; intros points Hbefore.
      - cbn [app map_res]. rewrite Hpoint, Hval. reflexivity.
      - cbn [app map_res] in *.
        destruct (otel_data_point timestamp m); [|discriminate].
        destruct (map_res (otel_data_point timestamp) before) as [ps|];
          [|discriminate].
        now rewrite (IH ps eq_refl). }
    now rewrite Hraise.
Qed.

Lemma format_missing_keys_witness :
  _format_for_otel (str_lit "m") (str_lit "%") 17
    [PDict [(str_lit "value", PInt 3)]]
  = Ok (otel_envelope (str_lit "m") (str_lit "%")
          [data_point 17 (float64_of_Z 3) []])
  /\ _format_for_otel (str_lit "m") (str_lit "%") 17
       ([RoundTripSamples.d1_s1] ++ PDict [] :: [RoundTripSamples.counted])
     = Raise TypeError.
Proof.
  split.
  - apply (proj1 (format_missing_keys (str_lit "m") (str_lit "%") 17
                    [(str_lit "value", PInt 3)] eq_refl)
             (PInt 3) (float64_of_Z 3)); reflexivity.
  - eapply (proj2 (format_missing_keys (str_lit "m") (str_lit "%") 17
                     [] eq_refl) eq_refl [RoundTripSamples.d1_s1]).
    reflexivity.
Defined.

(** ** The legacy fetcher at its edges *)

(** X14: a transport failure and an error status are not raised by the
    legacy fetcher: it returns no measurement, having made the one GET
    of [<url>/watering_pumps]. *)
Theorem fetch_legacy_fails_softly (config : device_config) (w : world) :
  request_fails (incoming w (served w)) ->
  fetch_from_legacy_html_device config w
  = (Ok [], after_get (url config ++ str_lit "/watering_pumps") w).
Proof.
  unfold fetch_from_legacy_html_device, requests_get, exchange, after_get.
  intros [Hnet | (r & Hr & Hst)].
  - now rewrite Hnet.
  - rewrite Hr. unfold legacy_measurements. cbn [bind]. now rewrite Hst.
Qed.

Lemma fetch_legacy_fails_softly_witness :
  fetch_from_legacy_html_device Samples.legacy_config
    LegacySamples.unavailable_world
  = (Ok [], after_get (str_lit "http://esp32-plants.local/watering_pumps")
              LegacySamples.unavailable_world).
Proof.
  apply (fetch_legacy_fails_softly Samples.legacy_config
           LegacySamples.unavailable_world).
  right. eexists. split; reflexivity.
Defined.

Lemma match_humidity_needs_h (c : N) (t : pystr) :
  c <> 72 -> match_items humidity_pattern (c :: t) = None.
Proof.
  intros Hc. unfold humidity_pattern. cbn [match_items].
  change (str_lit "Humidity A: ") with (72 :: str_lit "umidity A: ").
  cbn [strip_prefix]. apply N.eqb_neq in Hc. rewrite N.eqb_sym. now rewrite Hc.
Qed.

Lemma re_search_skips (pre t : pystr) :
  Forall (fun c => c <> 72) pre ->
  re_search humidity_pattern (pre ++ t) = re_search humidity_pattern t.
Proof.
  induction 1 as [|c pre Hc _ IH]; [reflexivity|].
  cbn [app re_search]. now rewrite (match_humidity_needs_h c _ Hc).
Qed.

Lemma re_search_here (t : pystr) (gs : list pystr) :
  match_items humidity_pattern t = Some gs ->
  re_search humidity_pattern t = Some gs.
Proof. intros H. destruct t; cbn [re_search]; now rewrite H. Qed.

(** X15: the values are those of the first occurrence of the pattern:
    when no letter H stands before an occurrence, the two measurements
    are the floats of exactly its two digit runs, whatever follows it,
    further occurrences included. *)
Theorem fetch_legacy_first_occurrence (config : device_config) (w : world)
    (r : response) (pre d1 d2 suf : pystr) :
  incoming w (served w) = Answer r ->
  status_ok r ->
  utf8_decode (content r) = Some (humidity_text pre d1 d2 suf) ->
  digit_run d1 -> digit_run d2 ->
  Forall (fun c => c <> 72) pre ->
  fst (fetch_from_legacy_html_device config w) = Ok (legacy_pair config d1 d2).
Proof.
  intros Hin Hst Hdec H1 H2 Hpre. rewrite fetch_legacy_unfold, Hin.
  unfold legacy_measurements. cbn [bind]. unfold status_ok in Hst.
  rewrite Hst. cbn [bind]. rewrite Hdec. cbn [bind].
  change (humidity_text pre d1 d2 suf)
    with (pre ++ humidity_text [] d1 d2 suf).
  rewrite (re_search_skips _ _ Hpre).
  rewrite (re_search_here _ _ (match_humidity_here d1 d2 suf H1 H2)).
  rewrite sensor_data_pairs. cbn [map_res bind].
  now rewrite (py_float_digit_run d1 H1), (py_float_digit_run d2 H2).
Qed.

Lemma fetch_legacy_first_occurrence_witness :
  fst (fetch_from_legacy_html_device Samples.legacy_config
         FirstOccurrence.world_)
  = Ok (legacy_pair Samples.legacy_config (str_lit "42") (str_lit "7")).
Proof.
  apply (fetch_legacy_first_occurrence Samples.legacy_config
           FirstOccurrence.world_
           {| status_code := 200; content := str_lit FirstOccurrence.page;
              json := None |}
           (str_lit "<p>") (str_lit "42") (str_lit "7")
           (str_lit "</p><p>Humidity A: 1% Humidity B: 2%</p>")).
  - reflexivity.
  - reflexivity.
  - reflexivity.
  - split; [discriminate | reflexivity].
  - split; [discriminate | reflexivity].
  - repeat constructor; discriminate.
Defined.

(** ** The collection cycle *)

(** X16: devices whose type has no fetcher take no part in the
    collection: it does the same, exchange for exchange, as for the list
    without them. *)
Theorem collect_skips_unknown_types (fuel : nat)
    (devices : list device_config) (acc : list pyval) (w : world) :
  collect fuel devices acc w = collect fuel (filter known_type devices) acc w.
Proof.
  revert acc w. induction devices as [|d devices IH]; intros acc w;
    [reflexivity|].
  cbn [filter]. unfold known_type at 1. cbn [collect].
  destruct (FETCHER_MAP_get (dev_type d)) as [f|] eqn:E.
  - cbn [collect]. rewrite E.
    destruct (run_fetcher f fuel d w) as [[[ms|e] w1]|]; auto.
  - apply IH.
Qed.

(** X17: collecting from a list of devices is collecting from its first
    part and then, from where that ended, from the rest: the
    measurements of earlier devices come first, each device's in the
    order its fetcher gave, and a device that raises ends it. *)
Theorem collect_app (fuel : nat) (first rest : list device_config)
    (acc : list pyval) (w : world) :
  collect fuel (first ++ rest) acc w =
  match collect fuel first acc w with
  | Some (Ok ms, w1) => collect fuel rest ms w1
  | other => other
  end.
Proof.
  revert acc w. induction first as [|d first IH]; intros acc w;
    [reflexivity|].
  cbn [app collect].
  destruct (FETCHER_MAP_get (dev_type d)) as [f|]; [|apply IH].
  destruct (run_fetcher f fuel d w) as [[[ms|e] w1]|]; auto.
Qed.

Lemma collect_extends (fuel : nat) (devices : list device_config) :
  forall (acc : list pyval) (w w' : world) (ms : list pyval),
    collect fuel devices acc w = Some (Ok ms, w') ->
    exists more, ms = acc ++ more.
Proof.
  induction devices as [|d devices IH]; intros acc w w' ms H.
  - cbn in H. inversion H; subst. exists []. now rewrite app_nil_r.
  - cbn [collect] in H.
    destruct (FETCHER_MAP_get (dev_type d)) as [f|]; [|now apply IH in H].
    destruct (run_fetcher f fuel d w) as [[[got|e] w1]|]; try discriminate.
    apply IH in H as (more & ->). exists (got ++ more). now rewrite app_assoc.
Qed.





(** ** Results that are no objects *)



(** ** From the fetchers to the envelope *)

Lemma dict_get_none_keys (d : pydict) (k : pystr) :
  dict_get d k = None -> ~ In k (dict_keys d).
Proof.
  induction d as [|[k' v'] d IH]; cbn; [auto|].
  destruct (str_eqb k' k) eqn:Ek; [discriminate|].
  apply str_eqb_neq in Ek. intros E [Heq | Hin]; [contradiction|].
  now apply IH.
Qed.

Lemma nodup_snoc {A} (xs : list A) (x : A) :
  NoDup xs -> ~ In x xs -> NoDup (xs ++ [x]).
Proof.
  induction 1 as [|y xs Hy Hxs IH]; cbn; intros Hx.
  - constructor; [auto | constructor].
  - constructor.
    + rewrite in_app_iff. intros [Hin | [Heq | []]]; [auto|].
      apply Hx. now left.
    + apply IH. intros Hin. apply Hx. now right.
Qed.

Lemma dict_set_wf (d : pydict) (k : pystr) (v : pyval) :
  dict_wf d -> dict_wf (dict_set d k v).
Proof.
  unfold dict_wf. intros H. destruct (dict_get d k) as [x|] eqn:E.
  - now rewrite (dict_keys_set_present d k v x E).
  - rewrite (dict_set_absent d k v E). unfold dict_keys in *.
    rewrite map_app. cbn [map fst].
    apply nodup_snoc; [exact H | now apply dict_get_none_keys].
Qed.

Lemma dict_set_forall (P : pystr * pyval -> Prop) (d : pydict) (k : pystr)
    (v : pyval) :
  Forall P d -> (forall k', P (k', v)) -> Forall P (dict_set d k v).
Proof.
  intros Hd Hv. induction Hd as [|[k' v'] d Hx Hd IH]; cbn.
  - constructor; [apply Hv | constructor].
  - destruct (str_eqb k' k); constructor; auto.
Qed.

Lemma measurement_plain (common : pydict) (probe : pystr) (v : float64) :
  string_attributes common ->
  plain_measurement (measurement v (with_sensor_id common probe)).
Proof.
  intros [Hwf Hstr]. exists v, (with_sensor_id common probe).
  split; [reflexivity|]. split.
  - now apply dict_set_wf.
  - apply dict_set_forall; [|intros; exact I].
    eapply Forall_impl; [|exact Hstr].
    intros [k x] Hx. cbn in *. destruct x; try discriminate. exact I.
Qed.

Lemma plain_formats (metric_name unit_ : pystr) (timestamp : Z)
    (ms : list pyval) :
  Forall plain_measurement ms ->
  exists envelope,
    _format_for_otel metric_name unit_ timestamp ms = Ok envelope
    /\ parse_envelope envelope = Some ms.
Proof.
  intros H. destruct (otel_data_points_plain timestamp ms H)
    as (ps & Hfmt & Hparse).
  unfold _format_for_otel. rewrite Hfmt. cbn [bind].
  destruct ps as [|p ps].
  - exists PNone. split; [reflexivity|]. cbn in Hparse. now rewrite <- Hparse.
  - eexists. split; [reflexivity|]. now rewrite parse_envelope_points.
Qed.

(** X20: for a device whose common attributes are strings, whatever
    either fetcher returns can be formatted: the formatter does not
    raise on it, and the envelope holds exactly those measurements, in
    their order. *)
Theorem fetched_measurements_format (config : device_config)
    (metric_name unit_ : pystr) (timestamp : Z) :
  string_attributes (common_of config) ->
  (forall w ms,
      fst (fetch_from_legacy_html_device config w) = Ok ms ->
      exists envelope,
        _format_for_otel metric_name unit_ timestamp ms = Ok envelope
        /\ parse_envelope envelope = Some ms)
  /\ (forall fuel w ms w',
         fetch_from_smooth_api_device fuel config w = Some (Ok ms, w') ->
         exists envelope,
           _format_for_otel metric_name unit_ timestamp ms = Ok envelope
           /\ parse_envelope envelope = Some ms).
Proof.
  intros Hcommon. split.
  - intros w ms Hms. apply plain_formats.
    destruct (legacy_returns config w ms Hms) as [-> | (d1 & d2 & ->)].
    + constructor.
    + repeat constructor; now apply measurement_plain.
  - intros fuel w ms w' Hms. apply plain_formats.
    unfold fetch_from_smooth_api_device in Hms.
    destruct (ESPSensorReader.get_available_sensors
                (ESPSensorReader.init (url config)) w) as [[found|e] w1];
      [|discriminate].
    destruct (negb (truthy (PList found))).
    + inversion Hms; subst. constructor.
    + destruct (all_strings found) as [labels|]; [|discriminate].
      apply Forall_forall. intros m Hm.
      destruct (smooth_loop_members _ _ _ _ _ _ _ _ Hms m Hm)
        as [[] | (label & v & _ & ->)].
      now apply measurement_plain.
Qed.

Lemma sample_string_attributes :
  string_attributes (common_of Samples.tagged_config).
Proof.
  split.
  - repeat constructor; cbn; intuition discriminate.
  - repeat constructor.
Qed.

Lemma fetched_measurements_format_witness :
  (exists envelope,
      _format_for_otel (str_lit "soil_moisture_percentage") (str_lit "%") 17
        (legacy_pair Samples.tagged_config (str_lit "42") (str_lit "7"))
      = Ok envelope
      /\ parse_envelope envelope
         = Some (legacy_pair Samples.tagged_config (str_lit "42") (str_lit "7")))
  /\ (exists envelope,
         _format_for_otel (str_lit "soil_moisture_percentage") (str_lit "%") 17
           (expected_measurements Samples.tagged_config SmoothSamples.four_reads)
         = Ok envelope
         /\ parse_envelope envelope
            = Some (expected_measurements Samples.tagged_config
                      SmoothSamples.four_reads)).
Proof.
  split.
  - apply (proj1 (fetched_measurements_format Samples.tagged_config
                    (str_lit "soil_moisture_percentage") (str_lit "%") 17
                    sample_string_attributes)
             LegacySamples.page_world).
    reflexivity.
  - eapply (proj2 (fetched_measurements_format Samples.tagged_config
                     (str_lit "soil_moisture_percentage") (str_lit "%") 17
                     sample_string_attributes)
              3%nat (Samples.world_of SmoothSamples.four_sensors)).
    reflexivity.
Defined.
